(** * crowdShip-backend: the matching script [scripts/match_predict.py]

    A shallow embedding of the feature-extraction and pricing pipeline of
    [match_predict.py], and the properties its specification states about it.

    Conventions of the embedding.
    - JSON-decoded Python values are the inductive type [pyval]; a [dict] is
      an association list in insertion order.
    - Python numbers ([int], [float]) are modelled by value, as exact
      rationals [Q]; [bool] counts as the numbers 1 and 0 in arithmetic, as in
      Python.  Rounding to binary64, overflow, NaN and infinities are outside
      the model.  Values that are [int] by construction in the source (minutes
      since midnight, [len]) are [Z].
    - A Python string is a [string]: a sequence of characters with code
      points 0..255.
    - Code that may raise returns [result], an exception monad; a function
      follows the evaluation order of the source, so the exception reported is
      the first one Python would meet.
    - The collaborators of the script ([geopy], [json], [joblib], [numpy],
      [sklearn]) are variables of a section. *)

From Stdlib Require Import ZArith QArith Qround Qabs Qminmax.
From Stdlib Require Import String Ascii DecimalString List Bool Lia Lqa.
Import ListNotations.

Set Warnings "-register-all".

Local Open Scope string_scope.
Local Open Scope Z_scope.

(** ** Exceptions and the exception monad *)

(** The subclasses of Python's [Exception] that the script and its
    collaborators raise; each carries the text [str(e)] yields (for a
    [KeyError], the [repr] of the key). *)
Inductive exn : Type :=
| KeyError (key_repr : string)
| IndexError (msg : string)
| TypeError (msg : string)
| ValueError (msg : string)
| AttributeError (msg : string)
| ZeroDivisionError (msg : string)
| LibraryError (msg : string).

Definition str_exn (e : exn) : string :=
  match e with
  | KeyError m
  | IndexError m | TypeError m | ValueError m | AttributeError m
  | ZeroDivisionError m | LibraryError m => m
  end.

Inductive result (A : Type) : Type :=
| Ok (a : A)
| Raise (e : exn).

Arguments Ok {A} a.
Arguments Raise {A} e.

Definition bind {A B : Type} (c : result A) (k : A -> result B) : result B :=
  match c with
  | Ok a => k a
  | Raise e => Raise e
  end.

Declare Scope py_scope.
Delimit Scope py_scope with py.
Notation "x <- c ;; k" := (bind c (fun x => k))
  (at level 61, c at next level, right associativity) : py_scope.
Notation "' pat <- c ;; k" := (bind c (fun x => match x with pat => k end))
  (at level 61, pat pattern, c at next level, right associativity) : py_scope.
Local Open Scope py_scope.

Definition returns {A : Type} (c : result A) : Prop := exists a, c = Ok a.

Fixpoint mapM {A B : Type} (f : A -> result B) (l : list A) : result (list B) :=
  match l with
  | [] => Ok []
  | x :: l' => y <- f x ;; ys <- mapM f l' ;; Ok (y :: ys)
  end.

(** ** Python values *)

Inductive pyval : Type :=
| PNone
| PBool (b : bool)
| PNum (q : Q)
| PStr (s : string)
| PList (l : list pyval)
| PDict (d : list (string * pyval)).

Definition type_name (v : pyval) : string :=
  match v with
  | PNone => "NoneType"
  | PBool _ => "bool"
  | PNum _ => "number"
  | PStr _ => "str"
  | PList _ => "list"
  | PDict _ => "dict"
  end.

Fixpoint lookup (key : string) (d : list (string * pyval)) : option pyval :=
  match d with
  | [] => None
  | (k, v) :: d' => if String.eqb k key then Some v else lookup key d'
  end.

Definition chars (s : string) : list pyval :=
  map (fun c => PStr (String c EmptyString)) (list_ascii_of_string s).

(** [v[key]] for a string literal [key]. *)
Definition getitem_str (v : pyval) (key : string) : result pyval :=
  match v with
  | PDict d =>
      match lookup key d with
      | Some x => Ok x
      | None => Raise (KeyError ("'" ++ key ++ "'"))
      end
  | PList _ => Raise (TypeError "list indices must be integers or slices, not str")
  | PStr _ => Raise (TypeError "string indices must be integers, not 'str'")
  | _ => Raise (TypeError ("'" ++ type_name v ++ "' object is not subscriptable"))
  end.

(** [v[i]] for a non-negative integer literal [i]. *)
Definition getitem_int (v : pyval) (i : nat) : result pyval :=
  match v with
  | PList l =>
      match nth_error l i with
      | Some x => Ok x
      | None => Raise (IndexError "list index out of range")
      end
  | PStr s =>
      match nth_error (chars s) i with
      | Some x => Ok x
      | None => Raise (IndexError "string index out of range")
      end
  | PDict _ => Raise (KeyError (NilZero.string_of_uint (Nat.to_uint i)))
  | _ => Raise (TypeError ("'" ++ type_name v ++ "' object is not subscriptable"))
  end.

(** [v.get(key, default)]. *)
Definition dict_get (v : pyval) (key : string) (default : pyval) : result pyval :=
  match v with
  | PDict d =>
      match lookup key d with
      | Some x => Ok x
      | None => Ok default
      end
  | _ => Raise (AttributeError ("'" ++ type_name v ++ "' object has no attribute 'get'"))
  end.

(** The items a [for] loop, a comprehension or an unpacking draws from [v]. *)
Definition py_iter (v : pyval) : result (list pyval) :=
  match v with
  | PList l => Ok l
  | PStr s => Ok (chars s)
  | PDict d => Ok (map (fun kv => PStr (fst kv)) d)
  | _ => Raise (TypeError ("'" ++ type_name v ++ "' object is not iterable"))
  end.

(** [len(v)]. *)
Definition py_len (v : pyval) : result Z :=
  match v with
  | PList l => Ok (Z.of_nat (List.length l))
  | PStr s => Ok (Z.of_nat (String.length s))
  | PDict d => Ok (Z.of_nat (List.length d))
  | _ => Raise (TypeError ("object of type '" ++ type_name v ++ "' has no len()"))
  end.

(** [a, b = v]. *)
Definition unpack2 (v : pyval) : result (pyval * pyval) :=
  items <- py_iter v ;;
  match items with
  | [a; b] => Ok (a, b)
  | _ :: _ :: _ :: _ => Raise (ValueError "too many values to unpack (expected 2)")
  | _ => Raise (ValueError "not enough values to unpack (expected 2)")
  end.

(** *** Numbers *)

Definition as_number (v : pyval) : option Q :=
  match v with
  | PNum q => Some q
  | PBool true => Some 1%Q
  | PBool false => Some 0%Q
  | _ => None
  end.

(** [a == b], which never raises on these values. *)
Fixpoint py_eq (a b : pyval) : bool :=
  match a, b with
  | PNone, PNone => true
  | PStr s, PStr t => String.eqb s t
  | PList l, PList m =>
      (fix all2 (l m : list pyval) : bool :=
         match l, m with
         | [], [] => true
         | x :: l', y :: m' => py_eq x y && all2 l' m'
         | _, _ => false
         end) l m
  | PDict d, PDict e =>
      Nat.eqb (List.length d) (List.length e) &&
      (fix sub (d : list (string * pyval)) : bool :=
         match d with
         | [] => true
         | (k, v) :: d' =>
             match lookup k e with
             | Some w => py_eq v w && sub d'
             | None => false
             end
         end) d
  | _, _ =>
      match as_number a, as_number b with
      | Some x, Some y => Qeq_bool x y
      | _, _ => false
      end
  end.

Definition unorderable (a b : pyval) : exn :=
  TypeError ("'<=' not supported between instances of '" ++ type_name a
             ++ "' and '" ++ type_name b ++ "'").

(** [a <= b]: numbers by value, strings and lists lexicographically. *)
Fixpoint py_le (a b : pyval) : result bool :=
  match a, b with
  | PStr s, PStr t => Ok (String.leb s t)
  | PList l, PList m =>
      (fix lex (l m : list pyval) : result bool :=
         match l, m with
         | [], _ => Ok true
         | _ :: _, [] => Ok false
         | x :: l', y :: m' => if py_eq x y then lex l' m' else py_le x y
         end) l m
  | _, _ =>
      match as_number a, as_number b with
      | Some x, Some y => Ok (Qle_bool x y)
      | _, _ => Raise (unorderable a b)
      end
  end.

(** [a * b] on numbers.  Python also repeats a sequence ([str * int]); the
    script divides or adds a number to every product it forms, which raises
    [TypeError] on a sequence, so a product with an operand that is not a
    number raises [TypeError] here at once. *)
Definition py_mul (a b : pyval) : result Q :=
  match as_number a, as_number b with
  | Some x, Some y => Ok (x * y)%Q
  | _, _ => Raise (TypeError "unsupported operand type(s) for *")
  end.

(** [a / b], true division, on two numbers and on two values. *)
Definition py_truediv (a b : Q) : result Q :=
  if Qeq_bool b 0 then Raise (ZeroDivisionError "division by zero")
  else Ok (a / b)%Q.

Definition py_div (a b : pyval) : result Q :=
  match as_number a, as_number b with
  | Some x, Some y => py_truediv x y
  | _, _ => Raise (TypeError "unsupported operand type(s) for /")
  end.

(** [max(a, b)] and [min(a, b)] return the first argument unless the
    second is strictly better. *)
Definition py_max (a b : Q) : Q := if Qle_bool b a then a else b.
Definition py_min (a b : Q) : Q := if Qle_bool a b then a else b.

(** [round(x, 2)]: to the nearest multiple of 1/100, halves to even. *)
Definition round_half_even (q : Q) : Z :=
  let f := Qfloor q in
  match (q - inject_Z f ?= 1 # 2)%Q with
  | Lt => f
  | Gt => f + 1
  | Eq => if Z.even f then f else f + 1
  end.

Definition py_round2 (q : Q) : Q := (inject_Z (round_half_even (q * 100)) / 100)%Q.

(** *** Strings and [int(str)] *)

(** [s.split(sep)] for a one-character separator. *)
Fixpoint split_on (sep : ascii) (s : string) : list string :=
  match s with
  | EmptyString => [EmptyString]
  | String c rest =>
      if Ascii.eqb c sep then EmptyString :: split_on sep rest
      else match split_on sep rest with
           | [] => [String c EmptyString]
           | h :: t => String c h :: t
           end
  end.

Definition str_split (v : pyval) (sep : ascii) : result (list string) :=
  match v with
  | PStr s => Ok (split_on sep s)
  | _ => Raise (AttributeError ("'" ++ type_name v ++ "' object has no attribute 'split'"))
  end.

Definition is_space (c : ascii) : bool :=
  let n := nat_of_ascii c in
  ((9 <=? n) && (n <=? 13) || (28 <=? n) && (n <=? 32) || (n =? 133) || (n =? 160))%nat.

Definition digit_of (c : ascii) : option Z :=
  let n := nat_of_ascii c in
  if ((48 <=? n) && (n <=? 57))%nat then Some (Z.of_nat (n - 48)) else None.

Fixpoint drop_spaces (l : list ascii) : list ascii :=
  match l with
  | c :: l' => if is_space c then drop_spaces l' else l
  | [] => []
  end.

Definition strip (l : list ascii) : list ascii :=
  rev (drop_spaces (rev (drop_spaces l))).

(** Decimal digits, a single underscore allowed between two digits;
    [sep] tells that a digit must come next. *)
Fixpoint parse_digits (acc : Z) (sep : bool) (l : list ascii) : option Z :=
  match l with
  | [] => if sep then None else Some acc
  | c :: l' =>
      if Ascii.eqb c "_" then
        if sep then None else parse_digits acc true l'
      else
        match digit_of c with
        | Some d => parse_digits (acc * 10 + d) false l'
        | None => None
        end
  end.

(** [int(s)] in base 10. *)
Definition py_int (s : string) : result Z :=
  let bad := Raise (ValueError ("invalid literal for int() with base 10: '" ++ s ++ "'")) in
  let of_digits (sign : Z) (l : list ascii) :=
    match parse_digits 0 true l with
    | Some n => Ok (sign * n)
    | None => bad
    end in
  match strip (list_ascii_of_string s) with
  | "+"%char :: l => of_digits 1 l
  | "-"%char :: l => of_digits (-1) l
  | l => of_digits 1 l
  end.

(** ** The script *)

(** [time_to_minutes]: the lazy [map(int, ...)] is consumed by the unpacking
    into two names, one item at a time. *)
Definition time_to_minutes (time_str : pyval) : result Z :=
  parts <- str_split time_str ":" ;;
  match parts with
  | [] => Raise (ValueError "not enough values to unpack (expected 2, got 0)")
  | h :: parts1 =>
      hours <- py_int h ;;
      match parts1 with
      | [] => Raise (ValueError "not enough values to unpack (expected 2, got 1)")
      | m :: parts2 =>
          minutes <- py_int m ;;
          match parts2 with
          | [] => Ok (hours * 60 + minutes)
          | x :: _ =>
              _ <- py_int x ;;
              Raise (ValueError "too many values to unpack (expected 2)")
          end
      end
  end.

Definition calculate_window_overlap
    (window1_start window1_end window2_start window2_end : pyval) : result Q :=
  w1_start <- time_to_minutes window1_start ;;
  w1_end <- time_to_minutes window1_end ;;
  w2_start <- time_to_minutes window2_start ;;
  w2_end <- time_to_minutes window2_end ;;
  let overlap_start := Z.max w1_start w2_start in
  let overlap_end := Z.min w1_end w2_end in
  if overlap_end <=? overlap_start then Ok 0%Q
  else
    let overlap_duration := overlap_end - overlap_start in
    let window2_duration := w2_end - w2_start in
    py_truediv (inject_Z overlap_duration) (inject_Z window2_duration).

Definition evaluate_size_compatibility (vehicle_capacity package_dimensions : pyval)
  : result Q :=
  vehicle_length <- getitem_str vehicle_capacity "length" ;;
  vehicle_width <- getitem_str vehicle_capacity "width" ;;
  vehicle_height <- getitem_str vehicle_capacity "height" ;;
  vehicle_weight_limit <- getitem_str vehicle_capacity "weightLimit" ;;
  package_length <- getitem_str package_dimensions "length" ;;
  package_width <- getitem_str package_dimensions "width" ;;
  package_height <- getitem_str package_dimensions "height" ;;
  package_weight <- getitem_str package_dimensions "weight" ;;
  (* [and] evaluates its right operand only when the left one is true *)
  dim_compatibility <-
    (fits_length <- py_le package_length vehicle_length ;;
     if negb fits_length then Ok false else
     fits_width <- py_le package_width vehicle_width ;;
     if negb fits_width then Ok false else
     fits_height <- py_le package_height vehicle_height ;;
     if negb fits_height then Ok false else
     py_le package_weight vehicle_weight_limit) ;;
  if negb dim_compatibility then Ok 0%Q
  else
    package_area <- py_mul package_length package_width ;;
    package_volume <- py_mul (PNum package_area) package_height ;;
    vehicle_area <- py_mul vehicle_length vehicle_width ;;
    vehicle_volume <- py_mul (PNum vehicle_area) vehicle_height ;;
    volume_ratio <- py_truediv package_volume vehicle_volume ;;
    weight_ratio <- py_div package_weight vehicle_weight_limit ;;
    let efficiency_score := (1 - Qabs ((3 # 10) - py_max volume_ratio weight_ratio))%Q in
    Ok (py_max (1 # 10) efficiency_score).

Definition calculate_time_compatibility (carrier_schedule pickup_window delivery_window : pyval)
  : result Q :=
  carrier_start <- getitem_str carrier_schedule "startTime" ;;
  carrier_end <- getitem_str carrier_schedule "endTime" ;;
  '(pickup_start, pickup_end) <- unpack2 pickup_window ;;
  '(delivery_start, delivery_end) <- unpack2 delivery_window ;;
  pickup_compatibility <-
    calculate_window_overlap carrier_start carrier_end pickup_start pickup_end ;;
  delivery_compatibility <-
    calculate_window_overlap carrier_start carrier_end delivery_start delivery_end ;;
  Ok (py_min pickup_compatibility delivery_compatibility).

(** [min(items, key=key)]: the keys are computed in sequence order and an
    item replaces the current best only when its key is strictly smaller. *)
Fixpoint min_scan {A : Type} (key : A -> result Q) (best : A) (best_key : Q) (items : list A)
  : result A :=
  match items with
  | [] => Ok best
  | x :: items' =>
      k <- key x ;;
      if Qle_bool best_key k then min_scan key best best_key items'
      else min_scan key x k items'
  end.

Definition py_min_key {A : Type} (key : A -> result Q) (items : list A) : result A :=
  match items with
  | [] => Raise (ValueError "min() arg is an empty sequence")
  | x :: items' => k <- key x ;; min_scan key x k items'
  end.

(** A coordinate pair [(coord[0], coord[1])]. *)
Definition point : Type := pyval * pyval.

Definition as_point (coord : pyval) : result point :=
  lat <- getitem_int coord 0 ;;
  lon <- getitem_int coord 1 ;;
  Ok (lat, lon).

(** The dict [{'distance': ..., 'time': ...}]. *)
Record RouteDeviation : Type := { distance : Q; time : Q }.

Definition route_deviation_json (r : RouteDeviation) : pyval :=
  PDict [("distance", PNum (distance r)); ("time", PNum (time r))].

Section Script.

(** [geodesic(p, q).km] of [geopy.distance]; it raises on coordinates it
    cannot read or that are out of range. *)
Variable geodesic_km : point -> point -> result Q.

Definition calculate_route_deviation (route_coords pickup_coords delivery_coords : pyval)
  : result RouteDeviation :=
  coords <- py_iter route_coords ;;
  route <- mapM as_point coords ;;
  pickup <- as_point pickup_coords ;;
  delivery <- as_point delivery_coords ;;
  nearest_to_pickup <- py_min_key (fun p => geodesic_km p pickup) route ;;
  nearest_to_delivery <- py_min_key (fun p => geodesic_km p delivery) route ;;
  pickup_deviation <- geodesic_km nearest_to_pickup pickup ;;
  delivery_deviation <- geodesic_km nearest_to_delivery delivery ;;
  let time_deviation := ((pickup_deviation + delivery_deviation) / 30 * 60)%Q in
  Ok {| distance := (pickup_deviation + delivery_deviation)%Q;
        time := time_deviation |}.

(** The call [calculate_route_deviation(carrier['routeCoordinates'],
    package['pickupCoordinates'], package['deliveryCoordinates'])], which
    the script makes at three places. *)
Definition route_deviation_of (package carrier : pyval) : result RouteDeviation :=
  route_coords <- getitem_str carrier "routeCoordinates" ;;
  pickup_coords <- getitem_str package "pickupCoordinates" ;;
  delivery_coords <- getitem_str package "deliveryCoordinates" ;;
  calculate_route_deviation route_coords pickup_coords delivery_coords.

Definition extract_features (package carrier : pyval) : result (list pyval) :=
  route_deviation <- route_deviation_of package carrier ;;
  time_flexibility <-
    (schedule <- getitem_str carrier "schedule" ;;
     pickup_window <- getitem_str package "pickupWindow" ;;
     delivery_window <- getitem_str package "deliveryWindow" ;;
     calculate_time_compatibility schedule pickup_window delivery_window) ;;
  size_compatibility <-
    (vehicle_capacity <- getitem_str carrier "vehicleCapacity" ;;
     dimensions <- getitem_str package "dimensions" ;;
     evaluate_size_compatibility vehicle_capacity dimensions) ;;
  carrier_rating <- dict_get carrier "rating" (PNum 0) ;;
  carrier_reliability <- dict_get carrier "onTimeRate" (PNum 0) ;;
  carrier_experience <-
    (deliveries <- dict_get carrier "completedDeliveries" (PList []) ;;
     py_len deliveries) ;;
  Ok [ PNum (distance route_deviation);
       PNum (time route_deviation);
       PNum time_flexibility;
       PNum size_compatibility;
       carrier_rating;
       carrier_reliability;
       PNum (inject_Z carrier_experience) ].

Definition calculate_compensation (package carrier : pyval) : result Q :=
  deviation <- route_deviation_of package carrier ;;
  let base_rate := 50%Q in
  let deviation_compensation := (distance deviation * 10)%Q in
  weight_factor <-
    (dimensions <- getitem_str package "dimensions" ;;
     weight <- getitem_str dimensions "weight" ;;
     py_mul weight (PNum 5)) ;;
  urgency <- dict_get package "urgency" PNone ;;
  let urgency_premium :=
    if py_eq urgency (PStr "high") then 100%Q
    else if py_eq urgency (PStr "medium") then 50%Q
    else 0%Q in
  let total_compensation :=
    (base_rate + deviation_compensation + weight_factor + urgency_premium)%Q in
  Ok (py_round2 total_compensation).

(** *** The two entry points and their collaborators *)

(** The fitted classifier, opaque to the script. *)
Variable model : Type.

(** [json.loads] and [json.dumps]; the latter does not raise on the values
    the script passes to it. *)
Variable json_loads : string -> result pyval.
Variable json_dumps : pyval -> string.

(** [joblib.load] and [joblib.dump]. *)
Variable joblib_load : string -> result model.
Variable joblib_dump : model -> string -> result unit.

(** [model.predict_proba(np.array(features).reshape(1, -1))[0][1]], the
    probability of the second class, which [float] converts as it is. *)
Variable predict_proba_1 : model -> list pyval -> result Q.

(** [json.load] of the file opened at a path. *)
Variable load_json_file : string -> result pyval.

(** The pipeline of a [StandardScaler] and a [RandomForestClassifier],
    built and fitted on the rows [X] and the labels [y]. *)
Variable fit_pipeline : list (list pyval) -> list pyval -> result model.

Definition error_json (e : exn) : pyval := PDict [("error", PStr (str_exn e))].

(** [try: body except Exception as e: handler e]. *)
Definition try_except {A : Type} (body : result A) (handler : exn -> A) : A :=
  match body with
  | Ok a => a
  | Raise e => handler e
  end.

(** The body of [predict_match] from the feature extraction to the result
    dict, for the decoded package and carrier and the loaded model. *)
Definition match_result (package carrier : pyval) (m : model) : result pyval :=
  features <- extract_features package carrier ;;
  match_score <- predict_proba_1 m features ;;
  compensation <- calculate_compensation package carrier ;;
  route_deviation <- route_deviation_of package carrier ;;
  carrier_id <- getitem_str carrier "id" ;;
  package_id <- getitem_str package "id" ;;
  Ok (PDict [ ("carrierId", carrier_id);
              ("packageId", package_id);
              ("matchScore", PNum match_score);
              ("compensation", PNum compensation);
              ("routeDeviation", route_deviation_json route_deviation) ]).

Definition predict_match (model_path package_json carrier_json : string) : string :=
  try_except
    (package <- json_loads package_json ;;
     carrier <- json_loads carrier_json ;;
     m <- joblib_load model_path ;;
     result <- match_result package carrier m ;;
     Ok (json_dumps result))
    (fun e => json_dumps (error_json e)).

(** The loop of [train_model] over the training records, which appends a
    feature row to [X] and an outcome to [y] per record. *)
Fixpoint training_rows (records : list pyval) (X : list (list pyval)) (y : list pyval)
  : result (list (list pyval) * list pyval) :=
  match records with
  | [] => Ok (X, y)
  | record :: records' =>
      package <- getitem_str record "package" ;;
      carrier <- getitem_str record "carrier" ;;
      features <- extract_features package carrier ;;
      outcome <- getitem_str record "success" ;;
      training_rows records' (X ++ [features]) (y ++ [outcome])
  end.

Definition trained_json : pyval :=
  PDict [("success", PBool true); ("message", PStr "Model trained successfully")].

Definition train_model (training_data_path model_path : string) : string :=
  try_except
    (training_data <- load_json_file training_data_path ;;
     records <- py_iter training_data ;;
     '(X, y) <- training_rows records [] [] ;;
     m <- fit_pipeline X y ;;
     _ <- joblib_dump m model_path ;;
     Ok (json_dumps trained_json))
    (fun e => json_dumps (error_json e)).

End Script.

(** ** The specification's formulas *)

(** The overlap ratio as the specification words it, on minutes since
    midnight: with [os = max(startA, startB)] and [oe = min(endA, endB)], it is
    0 if [oe <= os] and [(oe - os) / (endB - startB)] otherwise. *)
Definition spec_window_overlap (startA endA startB endB : Z) : Q :=
  let os := Z.max startA startB in
  let oe := Z.min endA endB in
  if oe <=? os then 0%Q else (inject_Z (oe - os) / inject_Z (endB - startB))%Q.

(** Two windows intersect when some instant lies in both. *)
Definition windows_intersect (startA endA startB endB : Z) : Prop :=
  exists t, startA <= t <= endA /\ startB <= t <= endB.

(** The size score as the specification words it. *)
Definition spec_size_score (pack_volume vehicle_volume pack_weight weight_limit : Q) : Q :=
  Qmax (1 # 10)
       (1 - Qabs ((3 # 10) - Qmax (pack_volume / vehicle_volume) (pack_weight / weight_limit))).

(** The urgency premium as the specification words it: 100 for ["high"], 50
    for ["medium"], 0 for anything else and for an absent field. *)
Definition spec_urgency_premium (urgency : option pyval) : Q :=
  match urgency with
  | Some (PStr s) =>
      if String.eqb s "high" then 100
      else if String.eqb s "medium" then 50
      else 0
  | _ => 0
  end.

(** An optional field of a dict, with the default the specification gives
    it. *)
Definition field_or (d : list (string * pyval)) (key : string) (default : pyval) : pyval :=
  match lookup key d with
  | Some v => v
  | None => default
  end.

(** [r] is [x] rounded to two decimal places: a whole number of hundredths,
    nearest to [x]. *)
Definition rounded_to_cents (x r : Q) : Prop :=
  (exists k : Z, r == inject_Z k / 100)%Q /\ (Qabs (r - x) <= 1 # 200)%Q.

(** [d] is the least key over [items], and [x] the first item that has it. *)
Definition first_minimum {A : Type} (key : A -> result Q) (items : list A) (x : A) (d : Q)
  : Prop :=
  exists i : nat,
    nth_error items i = Some x /\ key x = Ok d /\
    (forall y dy, In y items -> key y = Ok dy -> (d <= dy)%Q) /\
    (forall j y dy, (j < i)%nat -> nth_error items j = Some y -> key y = Ok dy -> (d < dy)%Q).

(** A field of a dict that holds a number. *)
Definition has_number (d : pyval) (key : string) (q : Q) : Prop :=
  exists v, getitem_str d key = Ok v /\ as_number v = Some q.

(** The eight numbers [evaluate_size_compatibility] reads. *)
Definition reads_sizes (vehicle_capacity package_dimensions : pyval)
    (L W H WL l w h wt : Q) : Prop :=
  has_number vehicle_capacity "length" L /\
  has_number vehicle_capacity "width" W /\
  has_number vehicle_capacity "height" H /\
  has_number vehicle_capacity "weightLimit" WL /\
  has_number package_dimensions "length" l /\
  has_number package_dimensions "width" w /\
  has_number package_dimensions "height" h /\
  has_number package_dimensions "weight" wt.

(** Results that agree: the same exception, or values equal as numbers. *)
Definition same_outcome (c1 c2 : result Q) : Prop :=
  match c1, c2 with
  | Ok q1, Ok q2 => (q1 == q2)%Q
  | Raise e1, Raise e2 => e1 = e2
  | _, _ => False
  end.

(** The shape of a match result. *)
Definition is_match_result (v : pyval) : Prop :=
  exists carrier_id package_id score compensation dist mins,
    v = PDict [ ("carrierId", carrier_id);
                ("packageId", package_id);
                ("matchScore", PNum score);
                ("compensation", PNum compensation);
                ("routeDeviation",
                 PDict [("distance", PNum dist); ("time", PNum mins)]) ].

(** The shape of an error result. *)
Definition is_error (v : pyval) : Prop :=
  exists message, v = PDict [("error", PStr message)].

(** ** Sample data *)

(** A package, a carrier and stand-ins for the collaborators, on which the
    theorems below are exercised. *)
Module Sample.

(** A stand-in for the geodesic distance: the taxicab distance between
    two points with numeric coordinates, one kilometre per degree. *)
Definition geodesic_km (p q : point) : result Q :=
  match as_number (fst p), as_number (snd p), as_number (fst q), as_number (snd q) with
  | Some lat1, Some lon1, Some lat2, Some lon2 =>
      Ok (Qabs (lat1 - lat2) + Qabs (lon1 - lon2))%Q
  | _, _, _, _ => Raise (ValueError "Failed to create Point instance")
  end.

Definition coord (lat lon : Q) : pyval := PList [PNum lat; PNum lon].

Definition dimensions : pyval :=
  PDict [("length", PNum 1); ("width", PNum 1); ("height", PNum 1); ("weight", PNum 10)].

Definition package_fields : list (string * pyval) :=
  [ ("id", PStr "pkg-1");
    ("pickupCoordinates", coord 0 2);
    ("deliveryCoordinates", coord 3 0);
    ("pickupWindow", PList [PStr "09:00"; PStr "10:00"]);
    ("deliveryWindow", PList [PStr "11:00"; PStr "13:00"]);
    ("dimensions", dimensions);
    ("urgency", PStr "high") ].

Definition package : pyval := PDict package_fields.

Definition schedule : pyval :=
  PDict [("startTime", PStr "08:00"); ("endTime", PStr "12:00")].

Definition vehicleCapacity : pyval :=
  PDict [("length", PNum 2); ("width", PNum 2); ("height", PNum 1); ("weightLimit", PNum 40)].

Definition route : pyval := PList [coord 0 0; coord 5 5].

Definition carrier_fields : list (string * pyval) :=
  [ ("id", PStr "car-1");
    ("routeCoordinates", route);
    ("schedule", schedule);
    ("vehicleCapacity", vehicleCapacity);
    ("rating", PNum (9 # 2)) ].

Definition carrier : pyval := PDict carrier_fields.

(** A second carrier on another route with the same deviation for
    [package], and with another rating, schedule and vehicle. *)
Definition other_carrier : pyval :=
  PDict [ ("id", PStr "car-2");
          ("routeCoordinates", PList [coord 3 2]);
          ("schedule", PDict [("startTime", PStr "00:00"); ("endTime", PStr "06:00")]);
          ("vehicleCapacity",
           PDict [("length", PNum 9); ("width", PNum 9); ("height", PNum 9);
                  ("weightLimit", PNum 900)]);
          ("rating", PNum 1);
          ("onTimeRate", PNum (1 # 2));
          ("completedDeliveries", PList [PStr "d1"; PStr "d2"]) ].

Definition carrier_without_route : pyval :=
  PDict [ ("id", PStr "car-3");
          ("routeCoordinates", PList []);
          ("schedule", schedule);
          ("vehicleCapacity", vehicleCapacity) ].

Definition model : Type := Q.

Definition json_loads (s : string) : result pyval :=
  if String.eqb s "package" then Ok package
  else if String.eqb s "package-without-id" then
    Ok (PDict [("pickupCoordinates", coord 0 2); ("deliveryCoordinates", coord 3 0)])
  else if String.eqb s "carrier" then Ok carrier
  else if String.eqb s "carrier-without-route" then Ok carrier_without_route
  else Raise (LibraryError "Expecting value: line 1 column 1 (char 0)").

(** A stand-in for [json.dumps] that writes only the keys of an object. *)
Definition json_dumps (v : pyval) : string :=
  match v with
  | PDict d => "{" ++ String.concat "," (map fst d) ++ "}"
  | _ => type_name v
  end.

Definition joblib_load (path : string) : result model :=
  if String.eqb path "model.joblib" then Ok (1 # 2)%Q
  else Raise (LibraryError "[Errno 2] No such file or directory").

Definition joblib_dump (m : model) (path : string) : result unit := Ok tt.

Definition predict_proba_1 (m : model) (features : list pyval) : result Q := Ok m.

Definition load_json_file (path : string) : result pyval :=
  if String.eqb path "history.json" then
    Ok (PList [PDict [("package", package); ("carrier", carrier); ("success", PBool true)]])
  else Raise (LibraryError "[Errno 2] No such file or directory").

Definition fit_pipeline (X : list (list pyval)) (y : list pyval) : result model :=
  match X with
  | [] => Raise (LibraryError "Found array with 0 sample(s)")
  | _ => Ok (1 # 2)%Q
  end.

End Sample.

(** ** The command line *)

Section Main.

Variable geodesic_km : point -> point -> result Q.
Variable model : Type.
Variable json_loads : string -> result pyval.
Variable json_dumps : pyval -> string.
Variable joblib_load : string -> result model.
Variable joblib_dump : model -> string -> result unit.
Variable predict_proba_1 : model -> list pyval -> result Q.
Variable load_json_file : string -> result pyval.
Variable fit_pipeline : list (list pyval) -> list pyval -> result model.

(** [sys.argv[i]]. *)
Definition argv_item (argv : list string) (i : nat) : result string :=
  match nth_error argv i with
  | Some s => Ok s
  | None => Raise (IndexError "list index out of range")
  end.

(** The block under [if __name__ == "__main__"]: the lines it prints for
    the arguments [argv], or the exception that ends the process. *)
Definition main (argv : list string) : result (list string) :=
  command <- argv_item argv 1 ;;
  if String.eqb command "predict" then
    model_path <- argv_item argv 2 ;;
    package_json <- argv_item argv 3 ;;
    carrier_json <- argv_item argv 4 ;;
    let result :=
      predict_match geodesic_km model json_loads json_dumps joblib_load predict_proba_1
                    model_path package_json carrier_json in
    Ok [result]
  else if String.eqb command "train" then
    training_data_path <- argv_item argv 2 ;;
    model_path <- argv_item argv 3 ;;
    let result :=
      train_model geodesic_km model json_dumps joblib_dump load_json_file fit_pipeline
                  training_data_path model_path in
    Ok [result]
  else Ok [].

End Main.

(** ** The training loop *)

(** The body of the loop of [train_model] for one record: the feature row
    and the outcome it appends. *)
Definition training_row (geodesic_km : point -> point -> result Q) (record : pyval)
  : result (list pyval * pyval) :=
  package <- getitem_str record "package" ;;
  carrier <- getitem_str record "carrier" ;;
  features <- extract_features geodesic_km package carrier ;;
  outcome <- getitem_str record "success" ;;
  Ok (features, outcome).

(** Two dicts that hold the same value, or both none, under each of the
    given keys. *)
Definition agree_on (keys : list string) (d d' : list (string * pyval)) : Prop :=
  Forall (fun key => lookup key d = lookup key d') keys.

(** ** Decimal times *)





(** The carrier schedule and the two package windows read as minutes:
    [c1, c2] for the schedule, [p1, p2] for the pickup window and [d1, d2] for
    the delivery window. *)
Definition reads_windows (carrier_schedule pickup_window delivery_window : pyval)
    (c1 c2 p1 p2 d1 d2 : Z) : Prop :=
  exists cs ce ps pe ds de : pyval,
    getitem_str carrier_schedule "startTime" = Ok cs /\
    getitem_str carrier_schedule "endTime" = Ok ce /\
    unpack2 pickup_window = Ok (ps, pe) /\
    unpack2 delivery_window = Ok (ds, de) /\
    time_to_minutes cs = Ok c1 /\ time_to_minutes ce = Ok c2 /\
    time_to_minutes ps = Ok p1 /\ time_to_minutes pe = Ok p2 /\
    time_to_minutes ds = Ok d1 /\ time_to_minutes de = Ok d2.

(** The exceptions a malformed time raises. *)
Definition is_value_error (e : exn) : Prop := exists msg, e = ValueError msg.
Definition is_attribute_error (e : exn) : Prop := exists msg, e = AttributeError msg.

(** ** Properties *)

(** *** The exception monad and the numeric helpers *)

Lemma bind_returns {A B : Type} (c : result A) (k : A -> result B) (b : B) :
  bind c k = Ok b -> exists a, c = Ok a /\ k a = Ok b.
Proof. destruct c as [a | e]; simpl; [eauto | discriminate]. Qed.

Lemma py_truediv_ok (a b : Q) : ~ (b == 0)%Q -> py_truediv a b = Ok (a / b)%Q.
Proof.
  intros Hb; unfold py_truediv.
  destruct (Qeq_bool b 0) eqn:E; [apply Qeq_bool_iff in E; contradiction | reflexivity].
Qed.

Lemma py_truediv_zero (a b : Q) :
  (b == 0)%Q -> py_truediv a b = Raise (ZeroDivisionError "division by zero").
Proof. intros Hb; unfold py_truediv; apply Qeq_bool_iff in Hb; rewrite Hb; reflexivity. Qed.

Lemma py_max_Qmax (a b : Q) : (py_max a b == Qmax a b)%Q.
Proof.
  unfold py_max; destruct (Qle_bool b a) eqn:E.
  - apply Qle_bool_iff in E; symmetry; apply Q.max_l; exact E.
  - symmetry; apply Q.max_r; apply Qnot_lt_le; intros H.
    apply Qlt_le_weak, Qle_bool_iff in H; congruence.
Qed.

Lemma py_min_Qmin (a b : Q) : (py_min a b == Qmin a b)%Q.
Proof.
  unfold py_min; destruct (Qle_bool a b) eqn:E.
  - apply Qle_bool_iff in E; symmetry; apply Q.min_l; exact E.
  - symmetry; apply Q.min_r; apply Qnot_lt_le; intros H.
    apply Qlt_le_weak, Qle_bool_iff in H; congruence.
Qed.

Lemma py_min_cases (a b : Q) : py_min a b = a \/ py_min a b = b.
Proof. unfold py_min; destruct (Qle_bool a b); auto. Qed.

(** *** Times and window overlap *)

(** [time_to_minutes] on well-formed and on malformed times: [int] accepts a
    sign, surrounding blanks and an underscore between digits, and the
    unpacking wants exactly two fields. *)
Example time_to_minutes_examples :
  time_to_minutes (PStr "08:30") = Ok 510 /\
  time_to_minutes (PStr "23:59") = Ok 1439 /\
  time_to_minutes (PStr " 8 :+3_0") = Ok 510 /\
  time_to_minutes (PStr "-1:30") = Ok (-30) /\
  time_to_minutes (PStr "0830")
  = Raise (ValueError "not enough values to unpack (expected 2, got 1)") /\
  time_to_minutes (PStr "08:30:00")
  = Raise (ValueError "too many values to unpack (expected 2)") /\
  time_to_minutes (PStr "08:3x")
  = Raise (ValueError "invalid literal for int() with base 10: '3x'") /\
  time_to_minutes (PNum 830)
  = Raise (AttributeError "'number' object has no attribute 'split'").
Proof. repeat split. Qed.

(** The division of [calculate_window_overlap] is reached only with a
    positive divisor: whatever the four times are, once they parse the
    function returns the ratio of the specification. *)
Lemma window_overlap_value (A_start A_end B_start B_end : pyval) (a1 a2 b1 b2 : Z) :
  time_to_minutes A_start = Ok a1 -> time_to_minutes A_end = Ok a2 ->
  time_to_minutes B_start = Ok b1 -> time_to_minutes B_end = Ok b2 ->
  calculate_window_overlap A_start A_end B_start B_end
  = Ok (spec_window_overlap a1 a2 b1 b2).
Proof.
  intros H1 H2 H3 H4; unfold calculate_window_overlap, spec_window_overlap.
  rewrite H1, H2, H3, H4; cbn [bind].
  destruct (Z.min a2 b2 <=? Z.max a1 b1) eqn:E; [reflexivity |].
  apply Z.leb_gt in E; apply py_truediv_ok.
  unfold Qeq; simpl; lia.
Qed.

Lemma spec_window_overlap_bounds (a1 a2 b1 b2 : Z) :
  (0 <= spec_window_overlap a1 a2 b1 b2 <= 1)%Q.
Proof.
  unfold spec_window_overlap.
  destruct (Z.min a2 b2 <=? Z.max a1 b1) eqn:E; [split; discriminate |].
  apply Z.leb_gt in E.
  assert (Hw : (0 < inject_Z (b2 - b1))%Q)
    by (change 0%Q with (inject_Z 0); rewrite <- Zlt_Qlt; lia).
  split.
  - apply Qle_shift_div_l; [exact Hw |]; rewrite Qmult_0_l.
    change 0%Q with (inject_Z 0); rewrite <- Zle_Qle; lia.
  - apply Qle_shift_div_r; [exact Hw |]; rewrite Qmult_1_l.
    rewrite <- Zle_Qle; lia.
Qed.

Lemma spec_window_overlap_disjoint (a1 a2 b1 b2 : Z) :
  ~ windows_intersect a1 a2 b1 b2 -> spec_window_overlap a1 a2 b1 b2 = 0%Q.
Proof.
  intros Hd; unfold spec_window_overlap.
  destruct (Z.min a2 b2 <=? Z.max a1 b1) eqn:E; [reflexivity |].
  apply Z.leb_gt in E; exfalso; apply Hd; exists (Z.max a1 b1); lia.
Qed.

(** C5: for windows A and B whose four times parse to minutes [a1, a2] and
    [b1, b2], with B of positive duration, [calculate_window_overlap] returns 0
    when [min(a2, b2) <= max(a1, b1)] and
    [(min(a2, b2) - max(a1, b1)) / (b2 - b1)] otherwise; in particular it
    returns 0 unless A and B intersect. *)
Theorem calculate_window_overlap_formula
    (A_start A_end B_start B_end : pyval) (a1 a2 b1 b2 : Z) :
  time_to_minutes A_start = Ok a1 -> time_to_minutes A_end = Ok a2 ->
  time_to_minutes B_start = Ok b1 -> time_to_minutes B_end = Ok b2 ->
  b1 < b2 ->
  calculate_window_overlap A_start A_end B_start B_end
  = Ok (if Z.min a2 b2 <=? Z.max a1 b1 then 0
        else inject_Z (Z.min a2 b2 - Z.max a1 b1) / inject_Z (b2 - b1))%Q /\
  (windows_intersect a1 a2 b1 b2 \/
   calculate_window_overlap A_start A_end B_start B_end = Ok 0%Q).
Proof.
  intros H1 H2 H3 H4 _.
  rewrite (window_overlap_value _ _ _ _ _ _ _ _ H1 H2 H3 H4).
  split; [reflexivity |].
  unfold spec_window_overlap.
  destruct (Z.min a2 b2 <=? Z.max a1 b1) eqn:E; [right; reflexivity | left].
  apply Z.leb_gt in E; exists (Z.max a1 b1); lia.
Qed.

Lemma calculate_window_overlap_formula_witness :
  calculate_window_overlap (PStr "08:00") (PStr "12:00") (PStr "11:00") (PStr "13:00")
  = Ok (if Z.min 720 780 <=? Z.max 480 660 then 0
        else inject_Z (Z.min 720 780 - Z.max 480 660) / inject_Z (780 - 660))%Q /\
  (windows_intersect 480 720 660 780 \/
   calculate_window_overlap (PStr "08:00") (PStr "12:00") (PStr "11:00") (PStr "13:00")
   = Ok 0%Q).
Proof.
  apply (calculate_window_overlap_formula
           (PStr "08:00") (PStr "12:00") (PStr "11:00") (PStr "13:00")
           480 720 660 780); reflexivity.
Defined.

(** C8: [calculate_window_overlap] is asymmetric.  The window 08:00-12:00
    covers all of 10:00-11:00, ratio 1, while 10:00-11:00 covers a quarter of
    08:00-12:00. *)
Theorem calculate_window_overlap_asymmetric :
  exists (A_start A_end B_start B_end : pyval) (a1 a2 b1 b2 : Z) (ab ba : Q),
    time_to_minutes A_start = Ok a1 /\ time_to_minutes A_end = Ok a2 /\
    time_to_minutes B_start = Ok b1 /\ time_to_minutes B_end = Ok b2 /\
    a2 - a1 <> b2 - b1 /\
    calculate_window_overlap A_start A_end B_start B_end = Ok ab /\
    calculate_window_overlap B_start B_end A_start A_end = Ok ba /\
    ~ (ab == ba)%Q.
Proof.
  exists (PStr "08:00"), (PStr "12:00"), (PStr "10:00"), (PStr "11:00").
  exists 480, 720, 600, 660, (60 # 60)%Q, (60 # 240)%Q.
  repeat split; try reflexivity; [lia | discriminate].
Qed.

(** C10: when the four times parse and window B has a positive duration,
    [calculate_window_overlap] returns a ratio in [0, 1]; and when the
    schedule and the two package windows parse, the package windows having a
    positive duration, [calculate_time_compatibility] returns a score in
    [0, 1]. *)
Theorem overlap_and_time_compatibility_in_unit_interval :
  (forall (A_start A_end B_start B_end : pyval) (a1 a2 b1 b2 : Z),
      time_to_minutes A_start = Ok a1 -> time_to_minutes A_end = Ok a2 ->
      time_to_minutes B_start = Ok b1 -> time_to_minutes B_end = Ok b2 ->
      b1 < b2 ->
      exists q, calculate_window_overlap A_start A_end B_start B_end = Ok q /\
                (0 <= q <= 1)%Q) /\
  (forall (carrier_schedule pickup_window delivery_window : pyval)
          (cs ce ps pe ds de : pyval) (c1 c2 p1 p2 d1 d2 : Z),
      getitem_str carrier_schedule "startTime" = Ok cs ->
      getitem_str carrier_schedule "endTime" = Ok ce ->
      unpack2 pickup_window = Ok (ps, pe) ->
      unpack2 delivery_window = Ok (ds, de) ->
      time_to_minutes cs = Ok c1 -> time_to_minutes ce = Ok c2 ->
      time_to_minutes ps = Ok p1 -> time_to_minutes pe = Ok p2 ->
      time_to_minutes ds = Ok d1 -> time_to_minutes de = Ok d2 ->
      p1 < p2 -> d1 < d2 ->
      exists q,
        calculate_time_compatibility carrier_schedule pickup_window delivery_window = Ok q /\
        (0 <= q <= 1)%Q).
Proof.
  split.
  - intros A_start A_end B_start B_end a1 a2 b1 b2 H1 H2 H3 H4 _.
    exists (spec_window_overlap a1 a2 b1 b2); split.
    + apply window_overlap_value; assumption.
    + apply spec_window_overlap_bounds.
  - intros sch pw dw cs ce ps pe ds de c1 c2 p1 p2 d1 d2
           Hcs Hce Hpw Hdw Tc1 Tc2 Tp1 Tp2 Td1 Td2 _ _.
    unfold calculate_time_compatibility.
    rewrite Hcs, Hce, Hpw, Hdw; cbn [bind].
    rewrite (window_overlap_value _ _ _ _ _ _ _ _ Tc1 Tc2 Tp1 Tp2).
    rewrite (window_overlap_value _ _ _ _ _ _ _ _ Tc1 Tc2 Td1 Td2); cbn [bind].
    eexists; split; [reflexivity |].
    destruct (py_min_cases (spec_window_overlap c1 c2 p1 p2)
                           (spec_window_overlap c1 c2 d1 d2)) as [-> | ->];
      apply spec_window_overlap_bounds.
Qed.

Lemma overlap_and_time_compatibility_in_unit_interval_witness :
  (exists q, calculate_window_overlap (PStr "08:00") (PStr "12:00")
                                      (PStr "11:00") (PStr "13:00") = Ok q /\
             (0 <= q <= 1)%Q) /\
  (exists q, calculate_time_compatibility
               Sample.schedule
               (PList [PStr "09:00"; PStr "10:00"])
               (PList [PStr "11:00"; PStr "13:00"]) = Ok q /\
             (0 <= q <= 1)%Q).
Proof.
  split.
  - apply (proj1 overlap_and_time_compatibility_in_unit_interval
             (PStr "08:00") (PStr "12:00") (PStr "11:00") (PStr "13:00")
             480 720 660 780); try reflexivity.
  - apply (proj2 overlap_and_time_compatibility_in_unit_interval
             Sample.schedule
             (PList [PStr "09:00"; PStr "10:00"]) (PList [PStr "11:00"; PStr "13:00"])
             (PStr "08:00") (PStr "12:00") (PStr "09:00") (PStr "10:00")
             (PStr "11:00") (PStr "13:00")
             480 720 540 600 660 780); try reflexivity.
Defined.

(** *** Time compatibility *)

(** C6: when the carrier schedule and the pickup and delivery windows parse,
    each with a positive duration, the two overlaps of the carrier window with
    the package windows are computed and [calculate_time_compatibility]
    returns their minimum, which is at most either of them. *)
Theorem calculate_time_compatibility_is_min
    (carrier_schedule pickup_window delivery_window : pyval)
    (cs ce ps pe ds de : pyval) (c1 c2 p1 p2 d1 d2 : Z) :
  getitem_str carrier_schedule "startTime" = Ok cs ->
  getitem_str carrier_schedule "endTime" = Ok ce ->
  unpack2 pickup_window = Ok (ps, pe) ->
  unpack2 delivery_window = Ok (ds, de) ->
  time_to_minutes cs = Ok c1 -> time_to_minutes ce = Ok c2 ->
  time_to_minutes ps = Ok p1 -> time_to_minutes pe = Ok p2 ->
  time_to_minutes ds = Ok d1 -> time_to_minutes de = Ok d2 ->
  c1 < c2 -> p1 < p2 -> d1 < d2 ->
  exists pickup_score delivery_score q,
    calculate_window_overlap cs ce ps pe = Ok pickup_score /\
    calculate_window_overlap cs ce ds de = Ok delivery_score /\
    calculate_time_compatibility carrier_schedule pickup_window delivery_window = Ok q /\
    (q == Qmin pickup_score delivery_score)%Q /\
    (q <= pickup_score)%Q /\ (q <= delivery_score)%Q.
Proof.
  intros Hcs Hce Hpw Hdw Tc1 Tc2 Tp1 Tp2 Td1 Td2 _ _ _.
  pose proof (window_overlap_value _ _ _ _ _ _ _ _ Tc1 Tc2 Tp1 Tp2) as Hp.
  pose proof (window_overlap_value _ _ _ _ _ _ _ _ Tc1 Tc2 Td1 Td2) as Hd.
  exists (spec_window_overlap c1 c2 p1 p2), (spec_window_overlap c1 c2 d1 d2).
  eexists; split; [exact Hp | split; [exact Hd | split]].
  - unfold calculate_time_compatibility.
    rewrite Hcs, Hce, Hpw, Hdw; cbn [bind]; rewrite Hp, Hd; reflexivity.
  - split; [apply py_min_Qmin |].
    split; rewrite py_min_Qmin; [apply Q.le_min_l | apply Q.le_min_r].
Qed.

Lemma calculate_time_compatibility_is_min_witness :
  exists pickup_score delivery_score q,
    calculate_window_overlap (PStr "08:00") (PStr "12:00") (PStr "09:00") (PStr "10:00")
    = Ok pickup_score /\
    calculate_window_overlap (PStr "08:00") (PStr "12:00") (PStr "11:00") (PStr "13:00")
    = Ok delivery_score /\
    calculate_time_compatibility
      Sample.schedule
      (PList [PStr "09:00"; PStr "10:00"])
      (PList [PStr "11:00"; PStr "13:00"]) = Ok q /\
    (q == Qmin pickup_score delivery_score)%Q /\
    (q <= pickup_score)%Q /\ (q <= delivery_score)%Q.
Proof.
  apply (calculate_time_compatibility_is_min
           Sample.schedule
           (PList [PStr "09:00"; PStr "10:00"]) (PList [PStr "11:00"; PStr "13:00"])
           (PStr "08:00") (PStr "12:00") (PStr "09:00") (PStr "10:00")
           (PStr "11:00") (PStr "13:00")
           480 720 540 600 660 780); reflexivity.
Defined.

(** *** Size compatibility *)

Lemma py_le_numbers (a b : pyval) (x y : Q) :
  as_number a = Some x -> as_number b = Some y -> py_le a b = Ok (Qle_bool x y).
Proof.
  intros Ha Hb.
  destruct a as [ | [ | ] | | | | ]; try discriminate Ha;
    destruct b as [ | [ | ] | | | | ]; try discriminate Hb;
    simpl in *; congruence.
Qed.

Lemma py_mul_numbers (a b : pyval) (x y : Q) :
  as_number a = Some x -> as_number b = Some y -> py_mul a b = Ok (x * y)%Q.
Proof. intros Ha Hb; unfold py_mul; rewrite Ha, Hb; reflexivity. Qed.

Lemma Qle_bool_false (x y : Q) : Qle_bool x y = false <-> (y < x)%Q.
Proof.
  split.
  - intros E; apply Qnot_le_lt; intros H; apply Qle_bool_iff in H; congruence.
  - intros H; destruct (Qle_bool x y) eqn:E; [| reflexivity].
    apply Qle_bool_iff in E; exfalso; exact (Qlt_not_le _ _ H E).
Qed.

Ltac read_sizes Hr :=
  destruct Hr as ((vL & HvL & NL) & (vW & HvW & NW) & (vH & HvH & NH) & (vWL & HvWL & NWL)
                  & (vl & Hvl & Nl) & (vw & Hvw & Nw) & (vh & Hvh & Nh) & (vwt & Hvwt & Nwt));
  unfold evaluate_size_compatibility;
  rewrite HvL, HvW, HvH, HvWL, Hvl, Hvw, Hvh, Hvwt; cbn [bind];
  rewrite (py_le_numbers _ _ _ _ Nl NL), (py_le_numbers _ _ _ _ Nw NW),
    (py_le_numbers _ _ _ _ Nh NH), (py_le_numbers _ _ _ _ Nwt NWL); cbn [bind].

(** A package that exceeds the vehicle on some axis scores 0, whatever the
    vehicle. *)
Lemma size_compatibility_exceeds (vehicle_capacity package_dimensions : pyval)
    (L W H WL l w h wt : Q) :
  reads_sizes vehicle_capacity package_dimensions L W H WL l w h wt ->
  (L < l \/ W < w \/ H < h \/ WL < wt)%Q ->
  evaluate_size_compatibility vehicle_capacity package_dimensions = Ok 0%Q.
Proof.
  intros Hr Hex; read_sizes Hr.
  destruct (Qle_bool l L) eqn:E1; cbn [negb bind]; [| reflexivity].
  destruct (Qle_bool w W) eqn:E2; cbn [negb bind]; [| reflexivity].
  destruct (Qle_bool h H) eqn:E3; cbn [negb bind]; [| reflexivity].
  destruct (Qle_bool wt WL) eqn:E4; cbn [negb bind]; [| reflexivity].
  apply Qle_bool_iff in E1, E2, E3, E4.
  exfalso; destruct Hex as [Hx | [Hx | [Hx | Hx]]];
    eapply Qlt_not_le; eassumption.
Qed.

(** A package that fits a vehicle of non-zero volume and weight limit gets
    the efficiency score, floored at 0.1. *)
Lemma size_compatibility_fits (vehicle_capacity package_dimensions : pyval)
    (L W H WL l w h wt : Q) :
  reads_sizes vehicle_capacity package_dimensions L W H WL l w h wt ->
  (l <= L /\ w <= W /\ h <= H /\ wt <= WL)%Q ->
  ~ (L * W * H == 0)%Q -> ~ (WL == 0)%Q ->
  exists score,
    evaluate_size_compatibility vehicle_capacity package_dimensions = Ok score /\
    (score == spec_size_score (l * w * h) (L * W * H) wt WL)%Q /\
    (1 # 10 <= score)%Q.
Proof.
  intros Hr (F1 & F2 & F3 & F4) Hvol Hlim; read_sizes Hr.
  apply Qle_bool_iff in F1, F2, F3, F4; rewrite F1, F2, F3, F4; cbn [negb bind].
  rewrite (py_mul_numbers _ _ _ _ Nl Nw); cbn [bind].
  rewrite (py_mul_numbers (PNum (l * w)) _ _ _ eq_refl Nh); cbn [bind].
  rewrite (py_mul_numbers _ _ _ _ NL NW); cbn [bind].
  rewrite (py_mul_numbers (PNum (L * W)) _ _ _ eq_refl NH); cbn [bind].
  rewrite (py_truediv_ok _ _ Hvol); cbn [bind].
  unfold py_div; rewrite Nwt, NWL.
  rewrite (py_truediv_ok _ _ Hlim); cbn [bind].
  eexists; split; [reflexivity |].
  unfold spec_size_score; rewrite !py_max_Qmax.
  split; [reflexivity | apply Q.le_max_l].
Qed.

(** A vehicle of zero volume makes the division of the volume ratio fail for
    a package that fits it. *)
Lemma size_compatibility_zero_volume (vehicle_capacity package_dimensions : pyval)
    (L W H WL l w h wt : Q) :
  reads_sizes vehicle_capacity package_dimensions L W H WL l w h wt ->
  (l <= L /\ w <= W /\ h <= H /\ wt <= WL)%Q ->
  (L * W * H == 0)%Q ->
  evaluate_size_compatibility vehicle_capacity package_dimensions
  = Raise (ZeroDivisionError "division by zero").
Proof.
  intros Hr (F1 & F2 & F3 & F4) Hvol; read_sizes Hr.
  apply Qle_bool_iff in F1, F2, F3, F4; rewrite F1, F2, F3, F4; cbn [negb bind].
  rewrite (py_mul_numbers _ _ _ _ Nl Nw); cbn [bind].
  rewrite (py_mul_numbers (PNum (l * w)) _ _ _ eq_refl Nh); cbn [bind].
  rewrite (py_mul_numbers _ _ _ _ NL NW); cbn [bind].
  rewrite (py_mul_numbers (PNum (L * W)) _ _ _ eq_refl NH); cbn [bind].
  rewrite (py_truediv_zero _ _ Hvol); reflexivity.
Qed.

(** C3: on a vehicle capacity and package dimensions that hold numbers,
    [evaluate_size_compatibility] returns exactly 0 when the package exceeds
    the vehicle on any of the four axes; when it fits, the vehicle having a
    non-zero volume and weight limit, it returns
    [max(0.1, 1 - |0.3 - max(volume ratio, weight ratio)|)], which is at least
    0.1. *)
Theorem evaluate_size_compatibility_score :
  (forall (vehicle_capacity package_dimensions : pyval) (L W H WL l w h wt : Q),
      reads_sizes vehicle_capacity package_dimensions L W H WL l w h wt ->
      (L < l \/ W < w \/ H < h \/ WL < wt)%Q ->
      evaluate_size_compatibility vehicle_capacity package_dimensions = Ok 0%Q) /\
  (forall (vehicle_capacity package_dimensions : pyval) (L W H WL l w h wt : Q),
      reads_sizes vehicle_capacity package_dimensions L W H WL l w h wt ->
      (l <= L /\ w <= W /\ h <= H /\ wt <= WL)%Q ->
      ~ (L * W * H == 0)%Q -> ~ (WL == 0)%Q ->
      exists score,
        evaluate_size_compatibility vehicle_capacity package_dimensions = Ok score /\
        (score == Qmax (1 # 10)
                       (1 - Qabs ((3 # 10) - Qmax (l * w * h / (L * W * H)) (wt / WL))))%Q /\
        (1 # 10 <= score)%Q).
Proof.
  split.
  - exact size_compatibility_exceeds.
  - exact size_compatibility_fits.
Qed.

Lemma evaluate_size_compatibility_score_witness :
  evaluate_size_compatibility
    Sample.vehicleCapacity
    (PDict [("length", PNum 3); ("width", PNum 1); ("height", PNum 1); ("weight", PNum 10)])
  = Ok 0%Q /\
  (exists score,
      evaluate_size_compatibility Sample.vehicleCapacity Sample.dimensions = Ok score /\
      (score == Qmax (1 # 10)
                     (1 - Qabs ((3 # 10) - Qmax (1 * 1 * 1 / (2 * 2 * 1)) (10 / 40))))%Q /\
      (1 # 10 <= score)%Q).
Proof.
  split.
  - apply (proj1 evaluate_size_compatibility_score _ _ 2 2 1 40 3 1 1 10)%Q.
    + repeat split; eexists; split; reflexivity.
    + left; reflexivity.
  - apply (proj2 evaluate_size_compatibility_score _ _ 2 2 1 40 1 1 1 10)%Q.
    + repeat split; eexists; split; reflexivity.
    + repeat split; discriminate.
    + discriminate.
    + discriminate.
Defined.

(** *** Route deviation *)

(** The scan of [min] keeps, at each step, the first item of least key among
    the current best and the items seen. *)
Lemma min_scan_first_minimum {A : Type} (key : A -> result Q) (items : list A) :
  forall (best : A) (best_key : Q),
    key best = Ok best_key ->
    (forall x, In x items -> returns (key x)) ->
    exists b d,
      min_scan key best best_key items = Ok b /\ key b = Ok d /\ (d <= best_key)%Q /\
      (forall y dy, In y items -> key y = Ok dy -> (d <= dy)%Q) /\
      ((b = best /\ d = best_key) \/
       (exists i, nth_error items i = Some b /\ (d < best_key)%Q /\
                  forall j y dy, (j < i)%nat -> nth_error items j = Some y ->
                                 key y = Ok dy -> (d < dy)%Q)).
Proof.
  induction items as [| x items IH]; intros best bk Hbest Hall.
  - exists best, bk; repeat split; [exact Hbest | apply Qle_refl | | left; auto].
    intros y dy [].
  - destruct (Hall x (or_introl eq_refl)) as [k Hk].
    assert (Hall' : forall y, In y items -> returns (key y))
      by (intros y Hy; apply Hall; right; exact Hy).
    cbn [min_scan]; rewrite Hk; cbn [bind].
    destruct (Qle_bool bk k) eqn:E.
    + apply Qle_bool_iff in E.
      destruct (IH best bk Hbest Hall') as (b & d & Hscan & Hb & Hle & Hmin & Hfirst).
      exists b, d; repeat split; try assumption.
      * intros y dy [<- | Hy] Hy'; [| eauto].
        rewrite Hk in Hy'; injection Hy' as <-; eapply Qle_trans; eassumption.
      * destruct Hfirst as [Hsame | (i & Hi & Hlt & Hbefore)]; [left; exact Hsame | right].
        exists (S i); repeat split; [exact Hi | exact Hlt |].
        intros [| j] y dy Hj Hy Hy'; cbn in Hy.
        -- injection Hy as <-; rewrite Hk in Hy'; injection Hy' as <-.
           eapply Qlt_le_trans; eassumption.
        -- apply (Hbefore j y dy); [lia | assumption | assumption].
    + apply Qle_bool_false in E.
      destruct (IH x k Hk Hall') as (b & d & Hscan & Hb & Hle & Hmin & Hfirst).
      assert (Hdb : (d < bk)%Q) by (eapply Qle_lt_trans; eassumption).
      exists b, d; repeat split; try assumption.
      * apply Qlt_le_weak; exact Hdb.
      * intros y dy [<- | Hy] Hy'; [| eauto].
        rewrite Hk in Hy'; injection Hy' as <-; exact Hle.
      * right; destruct Hfirst as [[-> ->] | (i & Hi & Hlt & Hbefore)].
        -- exists 0%nat; repeat split; [exact Hdb | intros j y dy Hj; lia].
        -- exists (S i); repeat split; [exact Hi | exact Hdb |].
           intros [| j] y dy Hj Hy Hy'; cbn in Hy.
           ++ injection Hy as <-; rewrite Hk in Hy'; injection Hy' as <-; exact Hlt.
           ++ apply (Hbefore j y dy); [lia | assumption | assumption].
Qed.

(** [min(items, key=key)] on a non-empty sequence whose keys are all defined
    returns the first item of least key. *)
Lemma py_min_key_first_minimum {A : Type} (key : A -> result Q) (items : list A) :
  items <> [] ->
  (forall x, In x items -> returns (key x)) ->
  exists x d, py_min_key key items = Ok x /\ first_minimum key items x d.
Proof.
  destruct items as [| x0 items]; [congruence | intros _ Hall].
  destruct (Hall x0 (or_introl eq_refl)) as [k0 Hk0].
  assert (Hall' : forall y, In y items -> returns (key y))
    by (intros y Hy; apply Hall; right; exact Hy).
  destruct (min_scan_first_minimum key items x0 k0 Hk0 Hall')
    as (b & d & Hscan & Hb & Hle & Hmin & Hfirst).
  exists b, d; split.
  - cbn [py_min_key]; rewrite Hk0; cbn [bind]; exact Hscan.
  - destruct Hfirst as [[-> ->] | (i & Hi & Hlt & Hbefore)].
    + exists 0%nat; repeat split; [exact Hk0 | | intros j y dy Hj; lia].
      intros y dy [<- | Hy] Hy'; [| eauto].
      rewrite Hk0 in Hy'; injection Hy' as <-; apply Qle_refl.
    + exists (S i); repeat split; [exact Hi | exact Hb | |].
      * intros y dy [<- | Hy] Hy'; [| eauto].
        rewrite Hk0 in Hy'; injection Hy' as <-; exact Hle.
      * intros [| j] y dy Hj Hy Hy'; cbn in Hy.
        -- injection Hy as <-; rewrite Hk0 in Hy'; injection Hy' as <-; exact Hlt.
        -- apply (Hbefore j y dy); [lia | assumption | assumption].
Qed.

Lemma py_min_key_empty {A : Type} (key : A -> result Q) :
  py_min_key key [] = Raise (ValueError "min() arg is an empty sequence").
Proof. reflexivity. Qed.

(** C4: on a non-empty route whose points, like the pickup and delivery
    points, are coordinate pairs the geodesic distance is defined on,
    [calculate_route_deviation] returns as distance the sum of the least
    distance from a route point to the pickup point and of the least distance
    from a route point to the delivery point, the nearest point being in each
    case the first one at that distance, and as time that distance / 30 * 60. *)
Theorem calculate_route_deviation_nearest
    (geodesic_km : point -> point -> result Q)
    (route_coords pickup_coords delivery_coords : pyval)
    (coords : list pyval) (route : list point) (pickup delivery : point) :
  py_iter route_coords = Ok coords ->
  mapM as_point coords = Ok route ->
  route <> [] ->
  as_point pickup_coords = Ok pickup ->
  as_point delivery_coords = Ok delivery ->
  (forall p, In p route -> returns (geodesic_km p pickup)) ->
  (forall p, In p route -> returns (geodesic_km p delivery)) ->
  exists nearest_to_pickup nearest_to_delivery pickup_deviation delivery_deviation,
    first_minimum (fun p => geodesic_km p pickup) route
                  nearest_to_pickup pickup_deviation /\
    first_minimum (fun p => geodesic_km p delivery) route
                  nearest_to_delivery delivery_deviation /\
    calculate_route_deviation geodesic_km route_coords pickup_coords delivery_coords
    = Ok {| distance := (pickup_deviation + delivery_deviation)%Q;
            time := ((pickup_deviation + delivery_deviation) / 30 * 60)%Q |}.
Proof.
  intros Hiter Hroute Hne Hpick Hdeliv Hgp Hgd.
  destruct (py_min_key_first_minimum (fun p => geodesic_km p pickup) route Hne Hgp)
    as (np & dp & Hnp & Hfp).
  destruct (py_min_key_first_minimum (fun p => geodesic_km p delivery) route Hne Hgd)
    as (nd & dd & Hnd & Hfd).
  exists np, nd, dp, dd; split; [exact Hfp | split; [exact Hfd |]].
  unfold calculate_route_deviation.
  rewrite Hiter; cbn [bind]; rewrite Hroute; cbn [bind].
  rewrite Hpick, Hdeliv; cbn [bind]; rewrite Hnp, Hnd; cbn [bind].
  destruct Hfp as (_ & _ & -> & _); destruct Hfd as (_ & _ & -> & _); reflexivity.
Qed.

Lemma calculate_route_deviation_nearest_witness :
  exists nearest_to_pickup nearest_to_delivery pickup_deviation delivery_deviation,
    first_minimum (fun p => Sample.geodesic_km p (PNum 0, PNum 2))
                  [(PNum 0, PNum 0); (PNum 5, PNum 5)]
                  nearest_to_pickup pickup_deviation /\
    first_minimum (fun p => Sample.geodesic_km p (PNum 3, PNum 0))
                  [(PNum 0, PNum 0); (PNum 5, PNum 5)]
                  nearest_to_delivery delivery_deviation /\
    calculate_route_deviation Sample.geodesic_km Sample.route
                              (Sample.coord 0 2) (Sample.coord 3 0)
    = Ok {| distance := (pickup_deviation + delivery_deviation)%Q;
            time := ((pickup_deviation + delivery_deviation) / 30 * 60)%Q |}.
Proof.
  apply (calculate_route_deviation_nearest
           Sample.geodesic_km Sample.route (Sample.coord 0 2) (Sample.coord 3 0)
           [Sample.coord 0 0; Sample.coord 5 5]
           [(PNum 0, PNum 0); (PNum 5, PNum 5)]
           (PNum 0, PNum 2) (PNum 3, PNum 0)); try reflexivity.
  - discriminate.
  - intros p [<- | [<- | []]]; eexists; reflexivity.
  - intros p [<- | [<- | []]]; eexists; reflexivity.
Defined.

(** On a route of three points with the pickup point nearest to the middle
    one, the pickup deviation is the distance to the middle point: here the
    delivery point lies on the route, so the whole deviation is that distance. *)
Example route_deviation_picks_middle_point :
  calculate_route_deviation
    Sample.geodesic_km
    (PList [Sample.coord 0 0; Sample.coord 4 4; Sample.coord 9 9])
    (Sample.coord 4 5) (Sample.coord 9 9)
  = Ok {| distance := 1 + 0; time := (1 + 0) / 30 * 60 |}%Q
  /\ Sample.geodesic_km (PNum 4, PNum 4) (PNum 4, PNum 5) = Ok 1%Q
  /\ Sample.geodesic_km (PNum 0, PNum 0) (PNum 4, PNum 5) = Ok 9%Q
  /\ Sample.geodesic_km (PNum 9, PNum 9) (PNum 4, PNum 5) = Ok 9%Q.
Proof. repeat split. Qed.

(** *** The feature vector *)

Ltac split_binds H :=
  repeat (apply bind_returns in H; destruct H as (? & ? & H)).

Lemma extract_features_length (geodesic_km : point -> point -> result Q)
    (package carrier : pyval) (v : list pyval) :
  extract_features geodesic_km package carrier = Ok v -> List.length v = 7%nat.
Proof.
  unfold extract_features; intros H; split_binds H.
  injection H as <-; reflexivity.
Qed.

(** C7: [extract_features] returns only vectors of length 7; and when the
    route deviation, the time compatibility and the size compatibility of a
    package and a carrier are computed, the vector is, in order, the deviation
    distance, the deviation time, the time compatibility, the size
    compatibility, the carrier's rating (0 if absent), its on-time rate (0 if
    absent) and the number of its completed deliveries (of the empty list if
    absent). *)
Theorem extract_features_vector :
  (forall (geodesic_km : point -> point -> result Q) (package carrier : pyval)
          (v : list pyval),
      extract_features geodesic_km package carrier = Ok v -> List.length v = 7%nat) /\
  (forall (geodesic_km : point -> point -> result Q)
          (package : pyval) (c : list (string * pyval))
          (route_deviation : RouteDeviation)
          (schedule pickup_window delivery_window vehicle_capacity dimensions : pyval)
          (time_flexibility size_compatibility : Q) (deliveries : list pyval),
      route_deviation_of geodesic_km package (PDict c) = Ok route_deviation ->
      getitem_str (PDict c) "schedule" = Ok schedule ->
      getitem_str package "pickupWindow" = Ok pickup_window ->
      getitem_str package "deliveryWindow" = Ok delivery_window ->
      calculate_time_compatibility schedule pickup_window delivery_window
      = Ok time_flexibility ->
      getitem_str (PDict c) "vehicleCapacity" = Ok vehicle_capacity ->
      getitem_str package "dimensions" = Ok dimensions ->
      evaluate_size_compatibility vehicle_capacity dimensions = Ok size_compatibility ->
      field_or c "completedDeliveries" (PList []) = PList deliveries ->
      extract_features geodesic_km package (PDict c)
      = Ok [ PNum (distance route_deviation);
             PNum (time route_deviation);
             PNum time_flexibility;
             PNum size_compatibility;
             field_or c "rating" (PNum 0);
             field_or c "onTimeRate" (PNum 0);
             PNum (inject_Z (Z.of_nat (List.length deliveries))) ]).
Proof.
  split; [exact extract_features_length |].
  intros geodesic_km package c rd schedule pw dw vc dims tf sc deliveries
         Hrd Hsch Hpw Hdw Htf Hvc Hdims Hsc Hdel.
  unfold extract_features.
  rewrite Hrd; cbn [bind].
  rewrite Hsch; cbn [bind]; rewrite Hpw, Hdw; cbn [bind]; rewrite Htf; cbn [bind].
  rewrite Hvc; cbn [bind]; rewrite Hdims; cbn [bind]; rewrite Hsc; cbn [bind].
  unfold field_or in *; unfold dict_get.
  destruct (lookup "rating" c); destruct (lookup "onTimeRate" c);
    destruct (lookup "completedDeliveries" c); cbn [bind]; rewrite Hdel; reflexivity.
Qed.

Lemma extract_features_vector_witness :
  List.length [ PNum 5; PNum (300 # 30); PNum (60 # 120); PNum (38 # 40);
                PNum (9 # 2); PNum 0; PNum 0 ] = 7%nat /\
  extract_features Sample.geodesic_km Sample.package Sample.carrier
  = Ok [ PNum 5; PNum (300 # 30); PNum (60 # 120); PNum (38 # 40);
         PNum (9 # 2); PNum 0; PNum (inject_Z (Z.of_nat 0)) ].
Proof.
  split.
  - apply (proj1 extract_features_vector Sample.geodesic_km Sample.package Sample.carrier).
    reflexivity.
  - apply (proj2 extract_features_vector Sample.geodesic_km Sample.package
             Sample.carrier_fields
             {| distance := 5; time := 300 # 30 |}
             Sample.schedule
             (PList [PStr "09:00"; PStr "10:00"]) (PList [PStr "11:00"; PStr "13:00"])
             Sample.vehicleCapacity Sample.dimensions
             (60 # 120) (38 # 40) []); reflexivity.
Defined.

(** With every optional field present, the last three entries are the
    carrier's own values. *)
Example extract_features_with_history :
  extract_features Sample.geodesic_km Sample.package Sample.other_carrier
  = Ok [ PNum 5; PNum (300 # 30); PNum 0; PNum (6400 # 9000);
         PNum 1; PNum (1 # 2); PNum 2 ].
Proof. reflexivity. Qed.

(** *** Compensation *)

Lemma round_half_even_compat (x y : Q) :
  (x == y)%Q -> round_half_even x = round_half_even y.
Proof.
  intros Hxy; unfold round_half_even.
  rewrite (Qfloor_comp _ _ Hxy).
  assert (Hc : (x - inject_Z (Qfloor y) ?= 1 # 2)%Q = (y - inject_Z (Qfloor y) ?= 1 # 2)%Q)
    by (rewrite Hxy; reflexivity).
  rewrite Hc; reflexivity.
Qed.

Lemma py_round2_compat (x y : Q) : (x == y)%Q -> py_round2 x = py_round2 y.
Proof.
  intros Hxy; unfold py_round2.
  rewrite (round_half_even_compat (x * 100) (y * 100)); [reflexivity |].
  rewrite Hxy; reflexivity.
Qed.

(** [round_half_even] is within one half of its argument. *)
Lemma round_half_even_near (q : Q) :
  (Qabs (inject_Z (round_half_even q) - q) <= 1 # 2)%Q.
Proof.
  pose proof (Qfloor_le q) as Hlo.
  pose proof (Qlt_floor q) as Hhi.
  rewrite inject_Z_plus in Hhi; change (inject_Z 1) with 1%Q in Hhi.
  apply Qabs_Qle_condition; unfold round_half_even.
  destruct (q - inject_Z (Qfloor q) ?= 1 # 2)%Q eqn:E;
    [apply Qeq_alt in E; destruct (Z.even (Qfloor q))
    | apply Qlt_alt in E | apply Qgt_alt in E];
    rewrite ?inject_Z_plus; change (inject_Z 1) with 1%Q;
    generalize dependent (inject_Z (Qfloor q)); intros f Hlo Hhi E; split; lra.
Qed.

Lemma py_round2_rounds (x : Q) : rounded_to_cents x (py_round2 x).
Proof.
  split.
  - exists (round_half_even (x * 100)); reflexivity.
  - pose proof (round_half_even_near (x * 100)) as H.
    apply Qabs_Qle_condition in H; apply Qabs_Qle_condition.
    unfold py_round2; generalize dependent (inject_Z (round_half_even (x * 100))).
    intros r H; unfold Qdiv; change (/ 100)%Q with (1 # 100)%Q; split; lra.
Qed.

Lemma py_eq_str (u : pyval) (s : string) :
  py_eq u (PStr s) = match u with PStr t => String.eqb t s | _ => false end.
Proof. destruct u as [ | [ | ] | | | | ]; reflexivity. Qed.

Lemma urgency_premium_agrees (u : pyval) :
  (if py_eq u (PStr "high") then 100%Q
   else if py_eq u (PStr "medium") then 50%Q else 0%Q)
  = spec_urgency_premium (Some u).
Proof.
  rewrite !py_eq_str; destruct u; try reflexivity.
Qed.

(** What [calculate_compensation] computes once the deviation distance is
    known. *)
Lemma calculate_compensation_after_deviation
    (geodesic_km : point -> point -> result Q) (package carrier : pyval)
    (deviation : RouteDeviation) :
  route_deviation_of geodesic_km package carrier = Ok deviation ->
  calculate_compensation geodesic_km package carrier
  = (weight_factor <-
       (dimensions <- getitem_str package "dimensions" ;;
        weight <- getitem_str dimensions "weight" ;;
        py_mul weight (PNum 5)) ;;
     urgency <- dict_get package "urgency" PNone ;;
     Ok (py_round2 (50 + distance deviation * 10 + weight_factor
                    + (if py_eq urgency (PStr "high") then 100
                       else if py_eq urgency (PStr "medium") then 50 else 0))%Q)).
Proof. intros H; unfold calculate_compensation; rewrite H; reflexivity. Qed.

Lemma calculate_compensation_value
    (geodesic_km : point -> point -> result Q)
    (p : list (string * pyval)) (carrier dimensions : pyval)
    (deviation : RouteDeviation) (weight : Q) :
  route_deviation_of geodesic_km (PDict p) carrier = Ok deviation ->
  getitem_str (PDict p) "dimensions" = Ok dimensions ->
  has_number dimensions "weight" weight ->
  calculate_compensation geodesic_km (PDict p) carrier
  = Ok (py_round2 (50 + distance deviation * 10 + weight * 5
                   + spec_urgency_premium (lookup "urgency" p))%Q).
Proof.
  intros Hrd Hdims (wv & Hwv & Nw).
  rewrite (calculate_compensation_after_deviation _ _ _ _ Hrd).
  rewrite Hdims; cbn [bind]; rewrite Hwv; cbn [bind].
  rewrite (py_mul_numbers wv (PNum 5) weight 5 Nw eq_refl); cbn [bind].
  unfold dict_get; destruct (lookup "urgency" p) as [u |]; cbn [bind].
  - rewrite urgency_premium_agrees; reflexivity.
  - reflexivity.
Qed.

(** C1: for a package whose weight is a number and a carrier for which the
    route deviation is computed, [calculate_compensation] returns
    50 + deviation distance * 10 + weight * 5 + urgency premium, rounded to two
    decimal places, the premium being 100 for urgency ["high"], 50 for
    ["medium"] and 0 otherwise or when absent; for weight 10, urgency ["high"]
    and deviation distance 5 it returns 250. *)
Theorem calculate_compensation_formula :
  (forall (geodesic_km : point -> point -> result Q)
          (p : list (string * pyval)) (carrier dimensions : pyval)
          (deviation : RouteDeviation) (weight : Q),
      route_deviation_of geodesic_km (PDict p) carrier = Ok deviation ->
      getitem_str (PDict p) "dimensions" = Ok dimensions ->
      has_number dimensions "weight" weight ->
      exists total compensation,
        (total == 50 + distance deviation * 10 + weight * 5
                  + spec_urgency_premium (lookup "urgency" p))%Q /\
        calculate_compensation geodesic_km (PDict p) carrier = Ok compensation /\
        rounded_to_cents total compensation) /\
  (forall (geodesic_km : point -> point -> result Q)
          (p : list (string * pyval)) (carrier dimensions : pyval)
          (deviation : RouteDeviation) (weight : Q),
      route_deviation_of geodesic_km (PDict p) carrier = Ok deviation ->
      getitem_str (PDict p) "dimensions" = Ok dimensions ->
      has_number dimensions "weight" weight ->
      (weight == 10)%Q ->
      lookup "urgency" p = Some (PStr "high") ->
      (distance deviation == 5)%Q ->
      exists compensation,
        calculate_compensation geodesic_km (PDict p) carrier = Ok compensation /\
        (compensation == 250)%Q).
Proof.
  split.
  - intros geodesic_km p carrier dims rd w Hrd Hdims Hw.
    eexists; eexists; split; [reflexivity | split].
    + exact (calculate_compensation_value _ _ _ _ _ _ Hrd Hdims Hw).
    + apply py_round2_rounds.
  - intros geodesic_km p carrier dims rd w Hrd Hdims Hw Hw10 Hur Hd5.
    eexists; split; [exact (calculate_compensation_value _ _ _ _ _ _ Hrd Hdims Hw) |].
    rewrite Hur; cbn [spec_urgency_premium String.eqb Ascii.eqb Bool.eqb].
    rewrite (py_round2_compat _ 250); [reflexivity |].
    rewrite Hw10, Hd5; reflexivity.
Qed.

Lemma calculate_compensation_formula_witness :
  (exists total compensation,
      (total == 50 + 5 * 10 + 10 * 5 + spec_urgency_premium (Some (PStr "high")))%Q /\
      calculate_compensation Sample.geodesic_km Sample.package Sample.carrier
      = Ok compensation /\
      rounded_to_cents total compensation) /\
  (exists compensation,
      calculate_compensation Sample.geodesic_km Sample.package Sample.carrier
      = Ok compensation /\
      (compensation == 250)%Q).
Proof.
  split.
  - apply (proj1 calculate_compensation_formula
             Sample.geodesic_km Sample.package_fields Sample.carrier Sample.dimensions
             {| distance := 5; time := 300 # 30 |} 10%Q).
    + reflexivity.
    + reflexivity.
    + exists (PNum 10); split; reflexivity.
  - apply (proj2 calculate_compensation_formula
             Sample.geodesic_km Sample.package_fields Sample.carrier Sample.dimensions
             {| distance := 5; time := 300 # 30 |} 10%Q).
    + reflexivity.
    + reflexivity.
    + exists (PNum 10); split; reflexivity.
    + reflexivity.
    + reflexivity.
    + reflexivity.
Defined.

(** The premium tiers on the sample package: 250 with urgency ["high"], 200
    with ["medium"], 150 with any other urgency and without the field; and a
    total with more than two decimals is rounded. *)
Example compensation_by_urgency :
  let with_urgency u :=
    PDict (("urgency", u) :: Sample.package_fields) in
  calculate_compensation Sample.geodesic_km (with_urgency (PStr "high")) Sample.carrier
  = Ok (25000 # 100)%Q /\
  calculate_compensation Sample.geodesic_km (with_urgency (PStr "medium")) Sample.carrier
  = Ok (20000 # 100)%Q /\
  calculate_compensation Sample.geodesic_km (with_urgency (PStr "low")) Sample.carrier
  = Ok (15000 # 100)%Q /\
  calculate_compensation Sample.geodesic_km (with_urgency PNone) Sample.carrier
  = Ok (15000 # 100)%Q /\
  calculate_compensation
    Sample.geodesic_km
    (PDict [ ("pickupCoordinates", Sample.coord 0 2);
             ("deliveryCoordinates", Sample.coord 3 0);
             ("dimensions", PDict [("weight", PNum (10012 # 10000))]) ])
    Sample.carrier
  = Ok (10501 # 100)%Q.
Proof. cbv zeta; repeat split. Qed.

(** C9: for one package and two carriers with the same route deviation
    distance for it, [calculate_compensation] has the same outcome, the same
    amount or the same exception, whatever else the carriers hold; and the
    compensation reported in a match result is that amount, whatever the
    classifier and the score it predicts. *)
Theorem calculate_compensation_depends_on_deviation_only :
  (forall (geodesic_km : point -> point -> result Q)
          (package carrier1 carrier2 : pyval) (deviation1 deviation2 : RouteDeviation),
      route_deviation_of geodesic_km package carrier1 = Ok deviation1 ->
      route_deviation_of geodesic_km package carrier2 = Ok deviation2 ->
      (distance deviation1 == distance deviation2)%Q ->
      same_outcome (calculate_compensation geodesic_km package carrier1)
                   (calculate_compensation geodesic_km package carrier2)) /\
  (forall (geodesic_km : point -> point -> result Q) (model1 model2 : Type)
          (predict1 : model1 -> list pyval -> result Q)
          (predict2 : model2 -> list pyval -> result Q)
          (package carrier : pyval) (m1 : model1) (m2 : model2) (result1 result2 : pyval),
      match_result geodesic_km model1 predict1 package carrier m1 = Ok result1 ->
      match_result geodesic_km model2 predict2 package carrier m2 = Ok result2 ->
      exists compensation,
        calculate_compensation geodesic_km package carrier = Ok compensation /\
        getitem_str result1 "compensation" = Ok (PNum compensation) /\
        getitem_str result2 "compensation" = Ok (PNum compensation)).
Proof.
  split.
  - intros geodesic_km package c1 c2 r1 r2 H1 H2 Hd.
    rewrite (calculate_compensation_after_deviation _ _ _ _ H1).
    rewrite (calculate_compensation_after_deviation _ _ _ _ H2).
    destruct (dimensions <- getitem_str package "dimensions" ;;
              weight <- getitem_str dimensions "weight" ;;
              py_mul weight (PNum 5)) as [wf | e]; cbn [bind same_outcome];
      [| reflexivity].
    destruct (dict_get package "urgency" PNone) as [u | e]; cbn [bind same_outcome];
      [| reflexivity].
    rewrite (py_round2_compat
               (50 + distance r1 * 10 + wf +
                (if py_eq u (PStr "high") then 100
                 else if py_eq u (PStr "medium") then 50 else 0))
               (50 + distance r2 * 10 + wf +
                (if py_eq u (PStr "high") then 100
                 else if py_eq u (PStr "medium") then 50 else 0)));
      [reflexivity | rewrite Hd; reflexivity].
  - intros geodesic_km model1 model2 predict1 predict2 package carrier m1 m2 v1 v2 H1 H2.
    unfold match_result in H1, H2; split_binds H1; split_binds H2.
    match goal with
    | Ha : calculate_compensation _ _ _ = Ok ?a,
      Hb : calculate_compensation _ _ _ = Ok ?b |- _ =>
        exists a; rewrite Ha in Hb; injection Hb as <-;
        injection H1 as <-; injection H2 as <-; repeat split; [exact Ha]
    end.
Qed.

Lemma calculate_compensation_depends_on_deviation_only_witness :
  same_outcome (calculate_compensation Sample.geodesic_km Sample.package Sample.carrier)
               (calculate_compensation Sample.geodesic_km Sample.package
                                       Sample.other_carrier) /\
  (exists compensation,
      calculate_compensation Sample.geodesic_km Sample.package Sample.carrier
      = Ok compensation /\
      getitem_str
        (PDict [ ("carrierId", PStr "car-1"); ("packageId", PStr "pkg-1");
                 ("matchScore", PNum (1 # 2)); ("compensation", PNum (25000 # 100));
                 ("routeDeviation",
                  route_deviation_json {| distance := 5; time := 300 # 30 |}) ])
        "compensation" = Ok (PNum compensation) /\
      getitem_str
        (PDict [ ("carrierId", PStr "car-1"); ("packageId", PStr "pkg-1");
                 ("matchScore", PNum (9 # 10)); ("compensation", PNum (25000 # 100));
                 ("routeDeviation",
                  route_deviation_json {| distance := 5; time := 300 # 30 |}) ])
        "compensation" = Ok (PNum compensation)).
Proof.
  split.
  - apply (proj1 calculate_compensation_depends_on_deviation_only
             Sample.geodesic_km Sample.package Sample.carrier Sample.other_carrier
             {| distance := 5; time := 300 # 30 |} {| distance := 5; time := 300 # 30 |});
      reflexivity.
  - apply (proj2 calculate_compensation_depends_on_deviation_only
             Sample.geodesic_km Q Q
             (fun m _ => Ok m) (fun m _ => Ok m)
             Sample.package Sample.carrier (1 # 2)%Q (9 # 10)%Q); reflexivity.
Defined.

(** *** The failure boundary of the entry points *)

(** A package window of zero (or negative) duration does not make
    [calculate_window_overlap] divide by zero: the overlap is then empty and
    the function returns 0 before the division. *)
Lemma window_overlap_degenerate (A_start A_end B_start B_end : pyval) (a1 a2 b1 b2 : Z) :
  time_to_minutes A_start = Ok a1 -> time_to_minutes A_end = Ok a2 ->
  time_to_minutes B_start = Ok b1 -> time_to_minutes B_end = Ok b2 ->
  b2 <= b1 ->
  calculate_window_overlap A_start A_end B_start B_end = Ok 0%Q.
Proof.
  intros H1 H2 H3 H4 Hb.
  rewrite (window_overlap_value _ _ _ _ _ _ _ _ H1 H2 H3 H4).
  unfold spec_window_overlap.
  replace (Z.min a2 b2 <=? Z.max a1 b1) with true; [reflexivity |].
  symmetry; apply Z.leb_le; lia.
Qed.

(** An empty route makes [min] raise. *)
Lemma route_deviation_empty_route (geodesic_km : point -> point -> result Q)
    (pickup_coords delivery_coords : pyval) :
  returns (as_point pickup_coords) -> returns (as_point delivery_coords) ->
  calculate_route_deviation geodesic_km (PList []) pickup_coords delivery_coords
  = Raise (ValueError "min() arg is an empty sequence").
Proof.
  intros [pickup Hp] [delivery Hd]; unfold calculate_route_deviation.
  cbn [py_iter mapM bind]; rewrite Hp, Hd; cbn [bind].
  rewrite py_min_key_empty; reflexivity.
Qed.

Section Boundary.

Variable geodesic_km : point -> point -> result Q.
Variable model : Type.
Variable json_loads : string -> result pyval.
Variable json_dumps : pyval -> string.
Variable joblib_load : string -> result model.
Variable joblib_dump : model -> string -> result unit.
Variable predict_proba_1 : model -> list pyval -> result Q.
Variable load_json_file : string -> result pyval.
Variable fit_pipeline : list (list pyval) -> list pyval -> result model.

Local Abbreviation predict :=
  (predict_match geodesic_km model json_loads json_dumps joblib_load predict_proba_1).
Local Abbreviation train :=
  (train_model geodesic_km model json_dumps joblib_dump load_json_file fit_pipeline).
Local Abbreviation result_of := (match_result geodesic_km model predict_proba_1).

Lemma error_json_is_error (e : exn) : is_error (error_json e).
Proof. exists (str_exn e); reflexivity. Qed.

Lemma match_result_shape (package carrier : pyval) (m : model) (v : pyval) :
  result_of package carrier m = Ok v -> is_match_result v.
Proof.
  unfold match_result; intros H; split_binds H; injection H as <-.
  unfold is_match_result, route_deviation_json; repeat eexists.
Qed.

(** Every exception raised while the inputs are read, the model is loaded
    or the result is computed becomes the error result. *)
Lemma predict_match_malformed_package (model_path package_json carrier_json : string)
    (e : exn) :
  json_loads package_json = Raise e ->
  predict model_path package_json carrier_json = json_dumps (error_json e).
Proof. intros H; unfold predict_match; rewrite H; reflexivity. Qed.

Lemma predict_match_malformed_carrier (model_path package_json carrier_json : string)
    (package : pyval) (e : exn) :
  json_loads package_json = Ok package ->
  json_loads carrier_json = Raise e ->
  predict model_path package_json carrier_json = json_dumps (error_json e).
Proof. intros Hp Hc; unfold predict_match; rewrite Hp, Hc; reflexivity. Qed.

Lemma predict_match_model_not_loaded (model_path package_json carrier_json : string)
    (package carrier : pyval) (e : exn) :
  json_loads package_json = Ok package ->
  json_loads carrier_json = Ok carrier ->
  joblib_load model_path = Raise e ->
  predict model_path package_json carrier_json = json_dumps (error_json e).
Proof. intros Hp Hc Hm; unfold predict_match; rewrite Hp, Hc, Hm; reflexivity. Qed.

Lemma predict_match_failed_result (model_path package_json carrier_json : string)
    (package carrier : pyval) (m : model) (e : exn) :
  json_loads package_json = Ok package ->
  json_loads carrier_json = Ok carrier ->
  joblib_load model_path = Ok m ->
  result_of package carrier m = Raise e ->
  predict model_path package_json carrier_json = json_dumps (error_json e).
Proof.
  intros Hp Hc Hm Hr; unfold predict_match; rewrite Hp, Hc, Hm; cbn [bind].
  rewrite Hr; reflexivity.
Qed.

Lemma predict_match_success (model_path package_json carrier_json : string)
    (package carrier : pyval) (m : model) (v : pyval) :
  json_loads package_json = Ok package ->
  json_loads carrier_json = Ok carrier ->
  joblib_load model_path = Ok m ->
  result_of package carrier m = Ok v ->
  predict model_path package_json carrier_json = json_dumps v.
Proof.
  intros Hp Hc Hm Hr; unfold predict_match; rewrite Hp, Hc, Hm; cbn [bind].
  rewrite Hr; reflexivity.
Qed.

(** A carrier without route coordinates, and a carrier with an empty route,
    make the computation of the result raise. *)
Lemma match_result_missing_route (package : pyval) (c : list (string * pyval)) (m : model) :
  lookup "routeCoordinates" c = None ->
  result_of package (PDict c) m = Raise (KeyError "'routeCoordinates'").
Proof.
  intros H; unfold match_result, extract_features, route_deviation_of, getitem_str.
  rewrite H; reflexivity.
Qed.

Lemma match_result_empty_route (package : pyval) (c : list (string * pyval)) (m : model)
    (pickup_coords delivery_coords : pyval) :
  lookup "routeCoordinates" c = Some (PList []) ->
  getitem_str package "pickupCoordinates" = Ok pickup_coords ->
  getitem_str package "deliveryCoordinates" = Ok delivery_coords ->
  returns (as_point pickup_coords) -> returns (as_point delivery_coords) ->
  result_of package (PDict c) m = Raise (ValueError "min() arg is an empty sequence").
Proof.
  intros Hr Hp Hd Hpp Hdp.
  unfold match_result, extract_features, route_deviation_of.
  unfold getitem_str at 1; rewrite Hr; cbn [bind]; rewrite Hp, Hd; cbn [bind].
  rewrite (route_deviation_empty_route _ _ _ Hpp Hdp); reflexivity.
Qed.

(** C2: whatever the paths and the JSON texts are, and whatever the
    collaborators return or raise, [predict_match] returns the serialization
    of a match result or of an error object, and [train_model] that of the
    success object or of an error object: the functions return a string and no
    exception passes them. *)
Theorem entry_points_return_result_or_error :
  (forall model_path package_json carrier_json : string,
      exists v, predict model_path package_json carrier_json = json_dumps v /\
                (is_match_result v \/ is_error v)) /\
  (forall training_data_path model_path : string,
      exists v, train training_data_path model_path = json_dumps v /\
                (v = trained_json \/ is_error v)).
Proof.
  split.
  - intros model_path package_json carrier_json; unfold predict_match.
    destruct (json_loads package_json) as [package | e]; cbn [bind try_except];
      [| eexists; split; [reflexivity | right; apply error_json_is_error]].
    destruct (json_loads carrier_json) as [carrier | e]; cbn [bind try_except];
      [| eexists; split; [reflexivity | right; apply error_json_is_error]].
    destruct (joblib_load model_path) as [m | e]; cbn [bind try_except];
      [| eexists; split; [reflexivity | right; apply error_json_is_error]].
    destruct (result_of package carrier m) as [v | e] eqn:Hv; cbn [bind try_except];
      [| eexists; split; [reflexivity | right; apply error_json_is_error]].
    exists v; split; [reflexivity | left; exact (match_result_shape _ _ _ _ Hv)].
  - intros training_data_path model_path; unfold train_model.
    destruct (load_json_file training_data_path) as [data | e]; cbn [bind try_except];
      [| eexists; split; [reflexivity | right; apply error_json_is_error]].
    destruct (py_iter data) as [records | e]; cbn [bind try_except];
      [| eexists; split; [reflexivity | right; apply error_json_is_error]].
    destruct (training_rows geodesic_km records [] []) as [[X y] | e];
      cbn [bind try_except];
      [| eexists; split; [reflexivity | right; apply error_json_is_error]].
    destruct (fit_pipeline X y) as [m | e]; cbn [bind try_except];
      [| eexists; split; [reflexivity | right; apply error_json_is_error]].
    destruct (joblib_dump m model_path) as [[] | e]; cbn [bind try_except];
      [| eexists; split; [reflexivity | right; apply error_json_is_error]].
    exists trained_json; split; [reflexivity | left; reflexivity].
Qed.

End Boundary.

(** The boundary on the sample collaborators: a match result for the sample
    package and carrier, an error for a text that is not JSON, for a model that
    is not found, for a package without [id] and for a carrier with an empty
    route; and a success and an error for training. *)
Example boundary_on_samples :
  let predict :=
    predict_match Sample.geodesic_km Sample.model Sample.json_loads Sample.json_dumps
                  Sample.joblib_load Sample.predict_proba_1 in
  let train :=
    train_model Sample.geodesic_km Sample.model Sample.json_dumps Sample.joblib_dump
                Sample.load_json_file Sample.fit_pipeline in
  predict "model.joblib" "package" "carrier"
  = "{carrierId,packageId,matchScore,compensation,routeDeviation}" /\
  predict "model.joblib" "{not json" "carrier" = "{error}" /\
  predict "missing.joblib" "package" "carrier" = "{error}" /\
  predict "model.joblib" "package-without-id" "carrier" = "{error}" /\
  predict "model.joblib" "package" "carrier-without-route" = "{error}" /\
  train "history.json" "model.joblib" = "{success,message}" /\
  train "missing.json" "model.joblib" = "{error}".
Proof. cbv zeta; repeat split. Qed.

(** A pickup window of zero duration is not an error: the time compatibility
    is 0. *)
Example zero_duration_window_scores_zero :
  calculate_time_compatibility
    Sample.schedule (PList [PStr "09:00"; PStr "09:00"]) (PList [PStr "11:00"; PStr "13:00"])
  = Ok 0%Q.
Proof. reflexivity. Qed.

(** ** Further properties of the script *)

(** *** Reading times *)














Lemma py_int_raises (s : string) (e : exn) :
  py_int s = Raise e -> is_value_error e.
Proof.
  unfold py_int; cbv zeta.
  destruct (strip (list_ascii_of_string s)) as [| c l].
  - cbn; intros H; injection H as <-; eexists; reflexivity.
  - destruct c as [[] [] [] [] [] [] [] []];
      match goal with
      | |- context [parse_digits ?a ?b ?x] => destruct (parse_digits a b x)
      end;
      intros H; try discriminate H; injection H as <-; eexists; reflexivity.
Qed.

Lemma time_to_minutes_raises (time_str : pyval) (e : exn) :
  time_to_minutes time_str = Raise e ->
  ((exists s, time_str = PStr s) /\ is_value_error e) \/
  ((forall s, time_str <> PStr s) /\ is_attribute_error e).
Proof.
  intros H.
  assert (Hstr : forall s, time_to_minutes (PStr s) = Raise e -> is_value_error e).
  { clear; intros s; unfold time_to_minutes, str_split; cbn [bind].
    destruct (split_on ":" s) as [| h [| m [| x rest]]].
    - intros H; injection H as <-; eexists; reflexivity.
    - destruct (py_int h) eqn:Eh; cbn [bind]; intros H.
      + injection H as <-; eexists; reflexivity.
      + injection H as <-; exact (py_int_raises _ _ Eh).
    - destruct (py_int h) eqn:Eh; cbn [bind];
        [| intros H; injection H as <-; exact (py_int_raises _ _ Eh)].
      destruct (py_int m) eqn:Em; cbn [bind]; intros H; [discriminate H |].
      injection H as <-; exact (py_int_raises _ _ Em).
    - destruct (py_int h) eqn:Eh; cbn [bind];
        [| intros H; injection H as <-; exact (py_int_raises _ _ Eh)].
      destruct (py_int m) eqn:Em; cbn [bind];
        [| intros H; injection H as <-; exact (py_int_raises _ _ Em)].
      destruct (py_int x) eqn:Ex; cbn [bind]; intros H.
      + injection H as <-; eexists; reflexivity.
      + injection H as <-; exact (py_int_raises _ _ Ex). }
  destruct time_str as [ | b | q | s | l | d ];
    try (right; split; [discriminate |];
         cbn in H; injection H as <-; eexists; reflexivity).
  left; split; [eexists; reflexivity | exact (Hstr s H)].
Qed.

(** X2: a time that is a string fails only with a [ValueError] (a field that
    [int] rejects, or not exactly two fields); a time that is not a string
    fails with an [AttributeError]. *)
Theorem time_to_minutes_failures (time_str : pyval) (e : exn) :
  time_to_minutes time_str = Raise e ->
  ((exists s, time_str = PStr s) /\ is_value_error e) \/
  ((forall s, time_str <> PStr s) /\ is_attribute_error e).
Proof. exact (time_to_minutes_raises time_str e). Qed.

Lemma time_to_minutes_failures_witness :
  ((exists s, PStr "0830" = PStr s) /\
   is_value_error (ValueError "not enough values to unpack (expected 2, got 1)")) \/
  ((forall s, PStr "0830" <> PStr s) /\
   is_attribute_error (ValueError "not enough values to unpack (expected 2, got 1)")).
Proof.
  apply (time_to_minutes_failures (PStr "0830")); reflexivity.
Defined.

(** *** More on window overlap *)

(** X3: [calculate_window_overlap] fails only when one of its four times
    fails to parse, with that exception: a [ValueError] or an
    [AttributeError], never a [ZeroDivisionError], whatever the durations. *)
Theorem calculate_window_overlap_failures
    (A_start A_end B_start B_end : pyval) (e : exn) :
  calculate_window_overlap A_start A_end B_start B_end = Raise e ->
  (time_to_minutes A_start = Raise e \/ time_to_minutes A_end = Raise e \/
   time_to_minutes B_start = Raise e \/ time_to_minutes B_end = Raise e) /\
  (is_value_error e \/ is_attribute_error e).
Proof.
  intros H.
  assert (Hwhich : time_to_minutes A_start = Raise e \/ time_to_minutes A_end = Raise e \/
                   time_to_minutes B_start = Raise e \/ time_to_minutes B_end = Raise e).
  { unfold calculate_window_overlap in H.
    destruct (time_to_minutes A_start) as [a1 |] eqn:E1; cbn [bind] in H;
      [| left; congruence].
    destruct (time_to_minutes A_end) as [a2 |] eqn:E2; cbn [bind] in H;
      [| right; left; congruence].
    destruct (time_to_minutes B_start) as [b1 |] eqn:E3; cbn [bind] in H;
      [| right; right; left; congruence].
    destruct (time_to_minutes B_end) as [b2 |] eqn:E4; cbn [bind] in H;
      [| right; right; right; congruence].
    pose proof (window_overlap_value _ _ _ _ _ _ _ _ E1 E2 E3 E4) as Hv.
    unfold calculate_window_overlap in Hv; rewrite E1, E2, E3, E4 in Hv; cbn [bind] in Hv.
    rewrite Hv in H; discriminate H. }
  split; [exact Hwhich |].
  destruct Hwhich as [Ht | [Ht | [Ht | Ht]]];
    destruct (time_to_minutes_raises _ _ Ht) as [[_ He] | [_ He]]; auto.
Qed.

Lemma calculate_window_overlap_failures_witness :
  (time_to_minutes (PStr "08:00") = Raise (ValueError "invalid literal for int() with base 10: 'xx'") \/
   time_to_minutes (PStr "12:00") = Raise (ValueError "invalid literal for int() with base 10: 'xx'") \/
   time_to_minutes (PStr "09:xx") = Raise (ValueError "invalid literal for int() with base 10: 'xx'") \/
   time_to_minutes (PStr "09:00") = Raise (ValueError "invalid literal for int() with base 10: 'xx'")) /\
  (is_value_error (ValueError "invalid literal for int() with base 10: 'xx'") \/
   is_attribute_error (ValueError "invalid literal for int() with base 10: 'xx'")).
Proof.
  apply (calculate_window_overlap_failures
           (PStr "08:00") (PStr "12:00") (PStr "09:xx") (PStr "09:00")); reflexivity.
Defined.

Lemma spec_window_overlap_covered (a1 a2 b1 b2 : Z) :
  a1 <= b1 -> b2 <= a2 -> b1 < b2 -> (spec_window_overlap a1 a2 b1 b2 == 1)%Q.
Proof.
  intros H1 H2 Hb; unfold spec_window_overlap.
  replace (Z.min a2 b2) with b2 by lia; replace (Z.max a1 b1) with b1 by lia.
  replace (b2 <=? b1) with false by (symmetry; apply Z.leb_gt; exact Hb).
  apply Qmult_inv_r; unfold Qeq; simpl; lia.
Qed.

Lemma spec_window_overlap_widen (a1 a2 a1' a2' b1 b2 : Z) :
  a1' <= a1 -> a2 <= a2' ->
  (spec_window_overlap a1 a2 b1 b2 <= spec_window_overlap a1' a2' b1 b2)%Q.
Proof.
  intros H1 H2; unfold spec_window_overlap at 1.
  destruct (Z.min a2 b2 <=? Z.max a1 b1) eqn:E;
    [apply spec_window_overlap_bounds |].
  apply Z.leb_gt in E; unfold spec_window_overlap.
  replace (Z.min a2' b2 <=? Z.max a1' b1) with false by (symmetry; apply Z.leb_gt; lia).
  unfold Qdiv; apply Qmult_le_compat_r.
  - rewrite <- Zle_Qle; lia.
  - apply Qinv_le_0_compat; change 0%Q with (inject_Z 0); rewrite <- Zle_Qle; lia.
Qed.

(** X4: a window A that covers a window B of positive duration overlaps it
    entirely: the ratio is 1. *)
Theorem calculate_window_overlap_covered
    (A_start A_end B_start B_end : pyval) (a1 a2 b1 b2 : Z) :
  time_to_minutes A_start = Ok a1 -> time_to_minutes A_end = Ok a2 ->
  time_to_minutes B_start = Ok b1 -> time_to_minutes B_end = Ok b2 ->
  a1 <= b1 -> b2 <= a2 -> b1 < b2 ->
  exists q, calculate_window_overlap A_start A_end B_start B_end = Ok q /\ (q == 1)%Q.
Proof.
  intros T1 T2 T3 T4 H1 H2 Hb; eexists; split.
  - apply window_overlap_value; eassumption.
  - apply spec_window_overlap_covered; assumption.
Qed.

Lemma calculate_window_overlap_covered_witness :
  exists q, calculate_window_overlap (PStr "08:00") (PStr "12:00")
                                     (PStr "09:00") (PStr "10:00") = Ok q /\ (q == 1)%Q.
Proof.
  apply (calculate_window_overlap_covered
           (PStr "08:00") (PStr "12:00") (PStr "09:00") (PStr "10:00")
           480 720 540 600); try reflexivity; lia.
Defined.

(** X5: widening window A (an earlier start, a later end) never lowers its
    overlap with a window B. *)
Theorem calculate_window_overlap_widen
    (A_start A_end A_start' A_end' B_start B_end : pyval) (a1 a2 a1' a2' b1 b2 : Z) :
  time_to_minutes A_start = Ok a1 -> time_to_minutes A_end = Ok a2 ->
  time_to_minutes A_start' = Ok a1' -> time_to_minutes A_end' = Ok a2' ->
  time_to_minutes B_start = Ok b1 -> time_to_minutes B_end = Ok b2 ->
  a1' <= a1 -> a2 <= a2' ->
  exists q q',
    calculate_window_overlap A_start A_end B_start B_end = Ok q /\
    calculate_window_overlap A_start' A_end' B_start B_end = Ok q' /\
    (q <= q')%Q.
Proof.
  intros T1 T2 T1' T2' T3 T4 H1 H2; eexists; eexists; repeat split.
  - apply window_overlap_value; eassumption.
  - apply window_overlap_value; eassumption.
  - apply spec_window_overlap_widen; assumption.
Qed.

Lemma calculate_window_overlap_widen_witness :
  exists q q',
    calculate_window_overlap (PStr "10:00") (PStr "12:00")
                             (PStr "09:00") (PStr "13:00") = Ok q /\
    calculate_window_overlap (PStr "09:30") (PStr "12:30")
                             (PStr "09:00") (PStr "13:00") = Ok q' /\
    (q <= q')%Q.
Proof.
  apply (calculate_window_overlap_widen
           (PStr "10:00") (PStr "12:00") (PStr "09:30") (PStr "12:30")
           (PStr "09:00") (PStr "13:00") 600 720 570 750 540 780);
    try reflexivity; lia.
Defined.

(** *** More on time compatibility *)

Lemma time_compatibility_value
    (carrier_schedule pickup_window delivery_window : pyval) (c1 c2 p1 p2 d1 d2 : Z) :
  reads_windows carrier_schedule pickup_window delivery_window c1 c2 p1 p2 d1 d2 ->
  calculate_time_compatibility carrier_schedule pickup_window delivery_window
  = Ok (py_min (spec_window_overlap c1 c2 p1 p2) (spec_window_overlap c1 c2 d1 d2)).
Proof.
  intros (cs & ce & ps & pe & ds & de & Hcs & Hce & Hpw & Hdw
          & Tc1 & Tc2 & Tp1 & Tp2 & Td1 & Td2).
  unfold calculate_time_compatibility.
  rewrite Hcs, Hce, Hpw, Hdw; cbn [bind].
  rewrite (window_overlap_value _ _ _ _ _ _ _ _ Tc1 Tc2 Tp1 Tp2).
  rewrite (window_overlap_value _ _ _ _ _ _ _ _ Tc1 Tc2 Td1 Td2); reflexivity.
Qed.

(** X6: a carrier whose schedule covers the pickup window and the delivery
    window, both of positive duration, gets the time compatibility 1. *)
Theorem calculate_time_compatibility_covered
    (carrier_schedule pickup_window delivery_window : pyval) (c1 c2 p1 p2 d1 d2 : Z) :
  reads_windows carrier_schedule pickup_window delivery_window c1 c2 p1 p2 d1 d2 ->
  c1 <= p1 -> p1 < p2 -> p2 <= c2 ->
  c1 <= d1 -> d1 < d2 -> d2 <= c2 ->
  exists q,
    calculate_time_compatibility carrier_schedule pickup_window delivery_window = Ok q /\
    (q == 1)%Q.
Proof.
  intros Hr Hp1 Hp Hp2 Hd1 Hd Hd2; eexists; split.
  - apply time_compatibility_value; exact Hr.
  - destruct (py_min_cases (spec_window_overlap c1 c2 p1 p2)
                           (spec_window_overlap c1 c2 d1 d2)) as [-> | ->];
      apply spec_window_overlap_covered; assumption.
Qed.

(** X7: a carrier whose schedule does not intersect the pickup window, or
    does not intersect the delivery window, gets the time compatibility 0,
    however well the other window is covered. *)
Theorem calculate_time_compatibility_missed
    (carrier_schedule pickup_window delivery_window : pyval) (c1 c2 p1 p2 d1 d2 : Z) :
  reads_windows carrier_schedule pickup_window delivery_window c1 c2 p1 p2 d1 d2 ->
  ~ windows_intersect c1 c2 p1 p2 \/ ~ windows_intersect c1 c2 d1 d2 ->
  exists q,
    calculate_time_compatibility carrier_schedule pickup_window delivery_window = Ok q /\
    (q == 0)%Q.
Proof.
  intros Hr Hmiss; eexists; split.
  - apply time_compatibility_value; exact Hr.
  - rewrite py_min_Qmin.
    pose proof (spec_window_overlap_bounds c1 c2 p1 p2) as [Hp _].
    pose proof (spec_window_overlap_bounds c1 c2 d1 d2) as [Hd _].
    destruct Hmiss as [Hm | Hm]; rewrite (spec_window_overlap_disjoint _ _ _ _ Hm).
    + apply Q.min_l; exact Hd.
    + apply Q.min_r; exact Hp.
Qed.

Lemma calculate_time_compatibility_covered_witness :
  exists q,
    calculate_time_compatibility
      Sample.schedule (PList [PStr "09:00"; PStr "10:00"]) (PList [PStr "10:30"; PStr "12:00"])
    = Ok q /\ (q == 1)%Q.
Proof.
  apply (calculate_time_compatibility_covered
           Sample.schedule (PList [PStr "09:00"; PStr "10:00"])
           (PList [PStr "10:30"; PStr "12:00"]) 480 720 540 600 630 720); try lia.
  exists (PStr "08:00"), (PStr "12:00"), (PStr "09:00"), (PStr "10:00"),
         (PStr "10:30"), (PStr "12:00").
  repeat split; reflexivity.
Defined.

Lemma calculate_time_compatibility_missed_witness :
  exists q,
    calculate_time_compatibility
      Sample.schedule (PList [PStr "09:00"; PStr "10:00"]) (PList [PStr "13:00"; PStr "14:00"])
    = Ok q /\ (q == 0)%Q.
Proof.
  apply (calculate_time_compatibility_missed
           Sample.schedule (PList [PStr "09:00"; PStr "10:00"])
           (PList [PStr "13:00"; PStr "14:00"]) 480 720 540 600 780 840).
  - exists (PStr "08:00"), (PStr "12:00"), (PStr "09:00"), (PStr "10:00"),
           (PStr "13:00"), (PStr "14:00").
    repeat split; reflexivity.
  - right; intros [t Ht]; lia.
Defined.

(** *** More on size compatibility *)

Lemma Qmult_le_nonneg (a b c d : Q) :
  (0 <= a <= b)%Q -> (0 <= c <= d)%Q -> (0 <= a * c <= b * d)%Q.
Proof.
  intros [Ha Hab] [Hc Hcd]; split.
  - apply Qmult_le_0_compat; assumption.
  - apply Qle_trans with (b * c)%Q.
    + apply Qmult_le_compat_r; assumption.
    + rewrite (Qmult_comm b c), (Qmult_comm b d).
      apply Qmult_le_compat_r; [assumption | apply Qle_trans with a; assumption].
Qed.

(** X8: for a vehicle of positive capacities and a package of non-negative
    dimensions that fits it, the score lies between 0.3 and 1: the floor of
    0.1 is not reached. *)
Theorem evaluate_size_compatibility_range
    (vehicle_capacity package_dimensions : pyval) (L W H WL l w h wt : Q) :
  reads_sizes vehicle_capacity package_dimensions L W H WL l w h wt ->
  (0 < L /\ 0 < W /\ 0 < H /\ 0 < WL)%Q ->
  (0 <= l <= L /\ 0 <= w <= W /\ 0 <= h <= H /\ 0 <= wt <= WL)%Q ->
  exists score,
    evaluate_size_compatibility vehicle_capacity package_dimensions = Ok score /\
    (3 # 10 <= score <= 1)%Q.
Proof.
  intros Hr (HL & HW & HH & HWL) ((Hl0 & Hl) & (Hw0 & Hw) & (Hh0 & Hh) & (Hwt0 & Hwt)).
  assert (Hvol : (0 < L * W * H)%Q)
    by (repeat apply Qmult_lt_0_compat; assumption).
  assert (Hpv : (0 <= l * w * h <= L * W * H)%Q)
    by (repeat apply Qmult_le_nonneg; split; assumption).
  destruct (size_compatibility_fits _ _ _ _ _ _ _ _ _ _ Hr) as (score & Hs & Heq & _).
  - repeat split; assumption.
  - intros E; rewrite E in Hvol; discriminate Hvol.
  - intros E; rewrite E in HWL; discriminate HWL.
  - exists score; split; [exact Hs |].
    rewrite Heq; unfold spec_size_score.
    assert (Hvr : (0 <= l * w * h / (L * W * H) <= 1)%Q).
    { split.
      - apply Qle_shift_div_l; [exact Hvol | rewrite Qmult_0_l; apply Hpv].
      - apply Qle_shift_div_r; [exact Hvol | rewrite Qmult_1_l; apply Hpv]. }
    assert (Hwr : (0 <= wt / WL <= 1)%Q).
    { split.
      - apply Qle_shift_div_l; [exact HWL | lra].
      - apply Qle_shift_div_r; [exact HWL | lra]. }
    set (m := Qmax (l * w * h / (L * W * H)) (wt / WL)).
    assert (Hm : (0 <= m <= 1)%Q).
    { unfold m; split.
      - eapply Qle_trans; [apply Hvr | apply Q.le_max_l].
      - apply Q.max_lub; [apply Hvr | apply Hwr]. }
    assert (Ha : (0 <= Qabs ((3 # 10) - m) <= 7 # 10)%Q).
    { split; [apply Qabs_nonneg | apply Qabs_Qle_condition; split; lra]. }
    generalize dependent (Qabs ((3 # 10) - m)); intros a Ha.
    split.
    + eapply Qle_trans; [| apply Q.le_max_r]; lra.
    + apply Q.max_lub; lra.
Qed.

Lemma evaluate_size_compatibility_range_witness :
  exists score,
    evaluate_size_compatibility Sample.vehicleCapacity Sample.dimensions = Ok score /\
    (3 # 10 <= score <= 1)%Q.
Proof.
  apply (evaluate_size_compatibility_range _ _ 2 2 1 40 1 1 1 10)%Q.
  - repeat split; eexists; split; reflexivity.
  - repeat split.
  - repeat split; discriminate.
Defined.

(** X9: a package that fits a vehicle whose volume or weight limit is zero
    gets no score: the ratio divides by zero and [ZeroDivisionError] is
    raised. *)
Theorem evaluate_size_compatibility_zero_capacity
    (vehicle_capacity package_dimensions : pyval) (L W H WL l w h wt : Q) :
  reads_sizes vehicle_capacity package_dimensions L W H WL l w h wt ->
  (l <= L /\ w <= W /\ h <= H /\ wt <= WL)%Q ->
  (L * W * H == 0)%Q \/ (WL == 0)%Q ->
  evaluate_size_compatibility vehicle_capacity package_dimensions
  = Raise (ZeroDivisionError "division by zero").
Proof.
  intros Hr Hfit Hzero.
  destruct (Qeq_dec (L * W * H) 0) as [Hvol | Hvol];
    [exact (size_compatibility_zero_volume _ _ _ _ _ _ _ _ _ _ Hr Hfit Hvol) |].
  destruct Hzero as [Hz | Hlim]; [contradiction |].
  destruct Hfit as (F1 & F2 & F3 & F4); read_sizes Hr.
  apply Qle_bool_iff in F1, F2, F3, F4; rewrite F1, F2, F3, F4; cbn [negb bind].
  rewrite (py_mul_numbers _ _ _ _ Nl Nw); cbn [bind].
  rewrite (py_mul_numbers (PNum (l * w)) _ _ _ eq_refl Nh); cbn [bind].
  rewrite (py_mul_numbers _ _ _ _ NL NW); cbn [bind].
  rewrite (py_mul_numbers (PNum (L * W)) _ _ _ eq_refl NH); cbn [bind].
  rewrite (py_truediv_ok _ _ Hvol); cbn [bind].
  unfold py_div; rewrite Nwt, NWL, (py_truediv_zero _ _ Hlim); reflexivity.
Qed.

Lemma evaluate_size_compatibility_zero_capacity_witness :
  evaluate_size_compatibility
    (PDict [("length", PNum 0); ("width", PNum 2); ("height", PNum 1);
            ("weightLimit", PNum 40)])
    (PDict [("length", PNum 0); ("width", PNum 1); ("height", PNum 1);
            ("weight", PNum 10)])
  = Raise (ZeroDivisionError "division by zero").
Proof.
  apply (evaluate_size_compatibility_zero_capacity _ _ 0 2 1 40 0 1 1 10)%Q.
  - repeat split; eexists; split; reflexivity.
  - repeat split; discriminate.
  - left; reflexivity.
Defined.

(** X10: a package longer than the vehicle scores 0 whatever the other seven
    fields hold, numbers or not: the comparison of the lengths ends the
    conjunction, and nothing is multiplied or divided. *)
Theorem evaluate_size_compatibility_too_long
    (vehicle_capacity package_dimensions : pyval)
    (vL vW vH vWL vl vw vh vwt : pyval) (L l : Q) :
  getitem_str vehicle_capacity "length" = Ok vL ->
  getitem_str vehicle_capacity "width" = Ok vW ->
  getitem_str vehicle_capacity "height" = Ok vH ->
  getitem_str vehicle_capacity "weightLimit" = Ok vWL ->
  getitem_str package_dimensions "length" = Ok vl ->
  getitem_str package_dimensions "width" = Ok vw ->
  getitem_str package_dimensions "height" = Ok vh ->
  getitem_str package_dimensions "weight" = Ok vwt ->
  as_number vL = Some L -> as_number vl = Some l -> (L < l)%Q ->
  evaluate_size_compatibility vehicle_capacity package_dimensions = Ok 0%Q.
Proof.
  intros HvL HvW HvH HvWL Hvl Hvw Hvh Hvwt NL Nl Hlong.
  unfold evaluate_size_compatibility.
  rewrite HvL, HvW, HvH, HvWL, Hvl, Hvw, Hvh, Hvwt; cbn [bind].
  rewrite (py_le_numbers _ _ _ _ Nl NL); cbn [bind].
  apply Qle_bool_false in Hlong; rewrite Hlong; reflexivity.
Qed.

Lemma evaluate_size_compatibility_too_long_witness :
  evaluate_size_compatibility
    Sample.vehicleCapacity
    (PDict [("length", PNum 3); ("width", PStr "wide"); ("height", PNone);
            ("weight", PList [])])
  = Ok 0%Q.
Proof.
  apply (evaluate_size_compatibility_too_long
           _ _ (PNum 2) (PNum 2) (PNum 1) (PNum 40)
           (PNum 3) (PStr "wide") PNone (PList []) 2 3); reflexivity.
Defined.

(** *** More on route deviation *)

(** X11: a route without points, be it an empty list, an empty string or an
    empty dict, makes [calculate_route_deviation] raise the [ValueError] of
    [min], once the pickup and delivery coordinates are pairs. *)
Theorem calculate_route_deviation_empty_route
    (geodesic_km : point -> point -> result Q)
    (route_coords pickup_coords delivery_coords : pyval) :
  py_iter route_coords = Ok [] ->
  returns (as_point pickup_coords) -> returns (as_point delivery_coords) ->
  calculate_route_deviation geodesic_km route_coords pickup_coords delivery_coords
  = Raise (ValueError "min() arg is an empty sequence").
Proof.
  intros Hiter [pickup Hp] [delivery Hd]; unfold calculate_route_deviation.
  rewrite Hiter; cbn [mapM bind]; rewrite Hp, Hd; cbn [bind].
  rewrite py_min_key_empty; reflexivity.
Qed.

Lemma calculate_route_deviation_empty_route_witness :
  calculate_route_deviation Sample.geodesic_km (PStr "")
                            (Sample.coord 0 2) (Sample.coord 3 0)
  = Raise (ValueError "min() arg is an empty sequence").
Proof.
  apply (calculate_route_deviation_empty_route
           Sample.geodesic_km (PStr "") (Sample.coord 0 2) (Sample.coord 3 0)).
  - reflexivity.
  - eexists; reflexivity.
  - eexists; reflexivity.
Defined.



(** The outcome of [calculate_route_deviation] on a route the distance is
    defined on, in terms of the two first minima. *)
Lemma route_deviation_value
    (geodesic_km : point -> point -> result Q)
    (route_coords pickup_coords delivery_coords : pyval)
    (coords : list pyval) (route : list point) (pickup delivery : point) :
  py_iter route_coords = Ok coords ->
  mapM as_point coords = Ok route ->
  route <> [] ->
  as_point pickup_coords = Ok pickup ->
  as_point delivery_coords = Ok delivery ->
  (forall p, In p route -> returns (geodesic_km p pickup)) ->
  (forall p, In p route -> returns (geodesic_km p delivery)) ->
  exists np nd dp dd,
    first_minimum (fun p => geodesic_km p pickup) route np dp /\
    first_minimum (fun p => geodesic_km p delivery) route nd dd /\
    calculate_route_deviation geodesic_km route_coords pickup_coords delivery_coords
    = Ok {| distance := (dp + dd)%Q; time := ((dp + dd) / 30 * 60)%Q |}.
Proof.
  intros Hiter Hroute Hne Hpick Hdeliv Hgp Hgd.
  destruct (py_min_key_first_minimum (fun p => geodesic_km p pickup) route Hne Hgp)
    as (np & dp & Hnp & Hfp).
  destruct (py_min_key_first_minimum (fun p => geodesic_km p delivery) route Hne Hgd)
    as (nd & dd & Hnd & Hfd).
  exists np, nd, dp, dd; split; [exact Hfp | split; [exact Hfd |]].
  unfold calculate_route_deviation.
  rewrite Hiter; cbn [bind]; rewrite Hroute; cbn [bind].
  rewrite Hpick, Hdeliv; cbn [bind]; rewrite Hnp, Hnd; cbn [bind].
  destruct Hfp as (_ & _ & -> & _); destruct Hfd as (_ & _ & -> & _); reflexivity.
Qed.

(** The least key over a list is at most the least key over a part of it. *)
Lemma first_minimum_incl {A : Type} (key : A -> result Q) (items items' : list A)
    (x x' : A) (d d' : Q) :
  first_minimum key items x d -> first_minimum key items' x' d' ->
  incl items items' -> (d' <= d)%Q.
Proof.
  intros (i & Hi & Hk & _) (_ & _ & _ & Hmin' & _) Hincl.
  apply (Hmin' x d); [apply Hincl; eapply nth_error_In; exact Hi | exact Hk].
Qed.

Lemma route_deviation_incl
    (geodesic_km : point -> point -> result Q)
    (pickup_coords delivery_coords : pyval)
    (coords coords' : list pyval) (route route' : list point) (pickup delivery : point) :
  mapM as_point coords = Ok route ->
  mapM as_point coords' = Ok route' ->
  route <> [] -> incl route route' ->
  as_point pickup_coords = Ok pickup ->
  as_point delivery_coords = Ok delivery ->
  (forall p, In p route' -> returns (geodesic_km p pickup)) ->
  (forall p, In p route' -> returns (geodesic_km p delivery)) ->
  exists deviation deviation',
    calculate_route_deviation geodesic_km (PList coords) pickup_coords delivery_coords
    = Ok deviation /\
    calculate_route_deviation geodesic_km (PList coords') pickup_coords delivery_coords
    = Ok deviation' /\
    (distance deviation' <= distance deviation)%Q.
Proof.
  intros Hroute Hroute' Hne Hincl Hpick Hdeliv Hgp Hgd.
  assert (Hne' : route' <> []).
  { destruct route as [| p route]; [congruence |].
    intros E; pose proof (Hincl p (or_introl eq_refl)) as Hp; rewrite E in Hp; exact Hp. }
  destruct (route_deviation_value geodesic_km (PList coords) pickup_coords delivery_coords
              coords route pickup delivery eq_refl Hroute Hne Hpick Hdeliv)
    as (np & nd & dp & dd & Hfp & Hfd & Hrd); [auto | auto |].
  destruct (route_deviation_value geodesic_km (PList coords') pickup_coords delivery_coords
              coords' route' pickup delivery eq_refl Hroute' Hne' Hpick Hdeliv Hgp Hgd)
    as (np' & nd' & dp' & dd' & Hfp' & Hfd' & Hrd').
  eexists; eexists; split; [exact Hrd | split; [exact Hrd' |]].
  cbn [distance].
  pose proof (first_minimum_incl _ _ _ _ _ _ _ Hfp Hfp' Hincl).
  pose proof (first_minimum_incl _ _ _ _ _ _ _ Hfd Hfd' Hincl).
  lra.
Qed.

(** X13: a route that has all the points of another route, and maybe more,
    deviates no more than it: a further waypoint never raises the deviation
    distance. *)
Theorem calculate_route_deviation_more_waypoints
    (geodesic_km : point -> point -> result Q)
    (pickup_coords delivery_coords : pyval)
    (coords coords' : list pyval) (route route' : list point) (pickup delivery : point) :
  mapM as_point coords = Ok route ->
  mapM as_point coords' = Ok route' ->
  route <> [] -> incl route route' ->
  as_point pickup_coords = Ok pickup ->
  as_point delivery_coords = Ok delivery ->
  (forall p, In p route' -> returns (geodesic_km p pickup)) ->
  (forall p, In p route' -> returns (geodesic_km p delivery)) ->
  exists deviation deviation',
    calculate_route_deviation geodesic_km (PList coords) pickup_coords delivery_coords
    = Ok deviation /\
    calculate_route_deviation geodesic_km (PList coords') pickup_coords delivery_coords
    = Ok deviation' /\
    (distance deviation' <= distance deviation)%Q.
Proof.
  exact (route_deviation_incl geodesic_km pickup_coords delivery_coords
           coords coords' route route' pickup delivery).
Qed.

Lemma calculate_route_deviation_more_waypoints_witness :
  exists deviation deviation',
    calculate_route_deviation
      Sample.geodesic_km (PList [Sample.coord 0 0; Sample.coord 5 5])
      (Sample.coord 0 2) (Sample.coord 3 0) = Ok deviation /\
    calculate_route_deviation
      Sample.geodesic_km (PList [Sample.coord 0 0; Sample.coord 3 1; Sample.coord 5 5])
      (Sample.coord 0 2) (Sample.coord 3 0) = Ok deviation' /\
    (distance deviation' <= distance deviation)%Q.
Proof.
  apply (calculate_route_deviation_more_waypoints
           Sample.geodesic_km (Sample.coord 0 2) (Sample.coord 3 0)
           [Sample.coord 0 0; Sample.coord 5 5]
           [Sample.coord 0 0; Sample.coord 3 1; Sample.coord 5 5]
           [(PNum 0, PNum 0); (PNum 5, PNum 5)]
           [(PNum 0, PNum 0); (PNum 3, PNum 1); (PNum 5, PNum 5)]
           (PNum 0, PNum 2) (PNum 3, PNum 0)); try reflexivity.
  - discriminate.
  - intros p [<- | [<- | []]]; simpl; auto.
  - intros p [<- | [<- | [<- | []]]]; eexists; reflexivity.
  - intros p [<- | [<- | [<- | []]]]; eexists; reflexivity.
Defined.

(** X14: two routes with the same points, in any order and with any
    repetition, have the same deviation distance: the tie-breaking of [min]
    does not show in the result. *)
Theorem calculate_route_deviation_same_points
    (geodesic_km : point -> point -> result Q)
    (pickup_coords delivery_coords : pyval)
    (coords coords' : list pyval) (route route' : list point) (pickup delivery : point) :
  mapM as_point coords = Ok route ->
  mapM as_point coords' = Ok route' ->
  route <> [] -> incl route route' -> incl route' route ->
  as_point pickup_coords = Ok pickup ->
  as_point delivery_coords = Ok delivery ->
  (forall p, In p route -> returns (geodesic_km p pickup)) ->
  (forall p, In p route -> returns (geodesic_km p delivery)) ->
  exists deviation deviation',
    calculate_route_deviation geodesic_km (PList coords) pickup_coords delivery_coords
    = Ok deviation /\
    calculate_route_deviation geodesic_km (PList coords') pickup_coords delivery_coords
    = Ok deviation' /\
    (distance deviation' == distance deviation)%Q.
Proof.
  intros Hroute Hroute' Hne Hincl Hincl' Hpick Hdeliv Hgp Hgd.
  assert (Hne' : route' <> []).
  { destruct route as [| p route]; [congruence |].
    intros E; pose proof (Hincl p (or_introl eq_refl)) as Hp; rewrite E in Hp; exact Hp. }
  destruct (route_deviation_incl geodesic_km pickup_coords delivery_coords
              coords coords' route route' pickup delivery
              Hroute Hroute' Hne Hincl Hpick Hdeliv)
    as (rd & rd' & Hrd & Hrd' & Hle); [auto | auto |].
  destruct (route_deviation_incl geodesic_km pickup_coords delivery_coords
              coords' coords route' route pickup delivery
              Hroute' Hroute Hne' Hincl' Hpick Hdeliv Hgp Hgd)
    as (rd2' & rd2 & Hrd2' & Hrd2 & Hge).
  rewrite Hrd in Hrd2; injection Hrd2 as <-.
  rewrite Hrd' in Hrd2'; injection Hrd2' as <-.
  exists rd, rd'; repeat split; [exact Hrd | exact Hrd' | apply Qle_antisym; assumption].
Qed.

Lemma calculate_route_deviation_same_points_witness :
  exists deviation deviation',
    calculate_route_deviation
      Sample.geodesic_km (PList [Sample.coord 0 0; Sample.coord 5 5])
      (Sample.coord 0 2) (Sample.coord 3 0) = Ok deviation /\
    calculate_route_deviation
      Sample.geodesic_km (PList [Sample.coord 5 5; Sample.coord 0 0; Sample.coord 5 5])
      (Sample.coord 0 2) (Sample.coord 3 0) = Ok deviation' /\
    (distance deviation' == distance deviation)%Q.
Proof.
  apply (calculate_route_deviation_same_points
           Sample.geodesic_km (Sample.coord 0 2) (Sample.coord 3 0)
           [Sample.coord 0 0; Sample.coord 5 5]
           [Sample.coord 5 5; Sample.coord 0 0; Sample.coord 5 5]
           [(PNum 0, PNum 0); (PNum 5, PNum 5)]
           [(PNum 5, PNum 5); (PNum 0, PNum 0); (PNum 5, PNum 5)]
           (PNum 0, PNum 2) (PNum 3, PNum 0)); try reflexivity.
  - discriminate.
  - intros p [<- | [<- | []]]; simpl; auto.
  - intros p [<- | [<- | [<- | []]]]; simpl; auto.
  - intros p [<- | [<- | []]]; eexists; reflexivity.
  - intros p [<- | [<- | []]]; eexists; reflexivity.
Defined.

(** X15: on a route that passes through the pickup point and through the
    delivery point, a distance that is never negative and is 0 from each of
    the two points to itself gives the deviation 0, in distance and in time. *)
Theorem calculate_route_deviation_on_route
    (geodesic_km : point -> point -> result Q)
    (route_coords pickup_coords delivery_coords : pyval)
    (coords : list pyval) (route : list point) (pickup delivery : point) :
  py_iter route_coords = Ok coords ->
  mapM as_point coords = Ok route ->
  as_point pickup_coords = Ok pickup ->
  as_point delivery_coords = Ok delivery ->
  In pickup route -> In delivery route ->
  (forall p, In p route -> exists d, geodesic_km p pickup = Ok d /\ (0 <= d)%Q) ->
  (forall p, In p route -> exists d, geodesic_km p delivery = Ok d /\ (0 <= d)%Q) ->
  (exists d, geodesic_km pickup pickup = Ok d /\ (d == 0)%Q) ->
  (exists d, geodesic_km delivery delivery = Ok d /\ (d == 0)%Q) ->
  exists deviation,
    calculate_route_deviation geodesic_km route_coords pickup_coords delivery_coords
    = Ok deviation /\
    (distance deviation == 0)%Q /\ (time deviation == 0)%Q.
Proof.
  intros Hiter Hroute Hpick Hdeliv Hinp Hind Hgp Hgd (zp & Hzp & Hzp0) (zd & Hzd & Hzd0).
  assert (Hne : route <> []) by (intros E; rewrite E in Hinp; exact Hinp).
  assert (Hzero : forall target z x d,
             In target route ->
             geodesic_km target target = Ok z -> (z == 0)%Q ->
             (forall p, In p route ->
                        exists d, geodesic_km p target = Ok d /\ (0 <= d)%Q) ->
             first_minimum (fun p => geodesic_km p target) route x d -> (d == 0)%Q).
  { intros target z x d Hin Hz Hz0 Hpos (i & Hi & Hk & Hmin & _).
    destruct (Hpos x (nth_error_In _ _ Hi)) as (d' & Hd' & Hd0).
    cbn beta in Hk; rewrite Hk in Hd'; injection Hd' as <-.
    pose proof (Hmin target z Hin Hz); lra. }
  destruct (route_deviation_value geodesic_km route_coords pickup_coords delivery_coords
              coords route pickup delivery Hiter Hroute Hne Hpick Hdeliv)
    as (np & nd & dp & dd & Hfp & Hfd & Hrd).
  - intros p Hp; destruct (Hgp p Hp) as (d & Hd & _); eexists; exact Hd.
  - intros p Hp; destruct (Hgd p Hp) as (d & Hd & _); eexists; exact Hd.
  - eexists; split; [exact Hrd |]; cbn [distance time].
    pose proof (Hzero pickup zp np dp Hinp Hzp Hzp0 Hgp Hfp) as Hp0.
    pose proof (Hzero delivery zd nd dd Hind Hzd Hzd0 Hgd Hfd) as Hd0.
    split; [lra |]; rewrite Hp0, Hd0; reflexivity.
Qed.

Lemma calculate_route_deviation_on_route_witness :
  exists deviation,
    calculate_route_deviation
      Sample.geodesic_km (PList [Sample.coord 0 2; Sample.coord 3 0])
      (Sample.coord 0 2) (Sample.coord 3 0) = Ok deviation /\
    (distance deviation == 0)%Q /\ (time deviation == 0)%Q.
Proof.
  apply (calculate_route_deviation_on_route
           Sample.geodesic_km (PList [Sample.coord 0 2; Sample.coord 3 0])
           (Sample.coord 0 2) (Sample.coord 3 0)
           [Sample.coord 0 2; Sample.coord 3 0]
           [(PNum 0, PNum 2); (PNum 3, PNum 0)]
           (PNum 0, PNum 2) (PNum 3, PNum 0)); try reflexivity.
  - simpl; auto.
  - simpl; auto.
  - intros p [<- | [<- | []]]; eexists; (split; [reflexivity | discriminate]).
  - intros p [<- | [<- | []]]; eexists; (split; [reflexivity | discriminate]).
  - eexists; split; reflexivity.
  - eexists; split; reflexivity.
Defined.

(** *** More on compensation *)

Lemma round_half_even_bounds (q : Q) :
  Qfloor q <= round_half_even q <= Qfloor q + 1.
Proof.
  unfold round_half_even.
  destruct (q - inject_Z (Qfloor q) ?= 1 # 2)%Q; [destruct (Z.even (Qfloor q)) | |]; lia.
Qed.

(** Rounding is monotone. *)
Lemma round_half_even_mono (x y : Q) :
  (x <= y)%Q -> round_half_even x <= round_half_even y.
Proof.
  intros Hxy.
  pose proof (Qfloor_resp_le _ _ Hxy) as Hf.
  pose proof (round_half_even_bounds x) as Bx.
  pose proof (round_half_even_bounds y) as By.
  destruct (Z.eq_dec (Qfloor x) (Qfloor y)) as [E | E]; [| lia].
  clear Bx By; unfold round_half_even; rewrite <- E.
  destruct (Qcompare_spec (x - inject_Z (Qfloor x)) (1 # 2)) as [Cx | Cx | Cx];
    destruct (Qcompare_spec (y - inject_Z (Qfloor x)) (1 # 2)) as [Cy | Cy | Cy];
    try (destruct (Z.even (Qfloor x))); try lia;
    exfalso; generalize dependent (inject_Z (Qfloor x)); intros; lra.
Qed.

Lemma py_round2_mono (x y : Q) : (x <= y)%Q -> (py_round2 x <= py_round2 y)%Q.
Proof.
  intros Hxy; unfold py_round2, Qdiv.
  apply Qmult_le_compat_r; [| discriminate].
  rewrite <- Zle_Qle; apply round_half_even_mono; lra.
Qed.

Lemma spec_urgency_premium_cases (u : option pyval) :
  spec_urgency_premium u = inject_Z 100 \/
  spec_urgency_premium u = inject_Z 50 \/
  spec_urgency_premium u = inject_Z 0.
Proof.
  destruct u as [[ | | | s | | ] |]; cbn; auto.
  destruct (String.eqb s "high"); [auto |].
  destruct (String.eqb s "medium"); auto.
Qed.

Lemma spec_urgency_premium_nonneg (u : option pyval) : (0 <= spec_urgency_premium u)%Q.
Proof.
  destruct (spec_urgency_premium_cases u) as [-> | [-> | ->]]; discriminate.
Qed.

(** X16: with a deviation distance and a weight that are not negative, the
    compensation is at least the base rate of 50. *)
Theorem calculate_compensation_at_least_base
    (geodesic_km : point -> point -> result Q)
    (p : list (string * pyval)) (carrier dimensions : pyval)
    (deviation : RouteDeviation) (weight : Q) :
  route_deviation_of geodesic_km (PDict p) carrier = Ok deviation ->
  getitem_str (PDict p) "dimensions" = Ok dimensions ->
  has_number dimensions "weight" weight ->
  (0 <= distance deviation)%Q -> (0 <= weight)%Q ->
  exists compensation,
    calculate_compensation geodesic_km (PDict p) carrier = Ok compensation /\
    (50 <= compensation)%Q.
Proof.
  intros Hrd Hdims Hw Hd0 Hw0; eexists; split.
  - exact (calculate_compensation_value _ _ _ _ _ _ Hrd Hdims Hw).
  - apply Qle_trans with (py_round2 50); [discriminate |].
    apply py_round2_mono.
    pose proof (spec_urgency_premium_nonneg (lookup "urgency" p)); lra.
Qed.

Lemma calculate_compensation_at_least_base_witness :
  exists compensation,
    calculate_compensation Sample.geodesic_km Sample.package Sample.carrier
    = Ok compensation /\
    (50 <= compensation)%Q.
Proof.
  apply (calculate_compensation_at_least_base
           Sample.geodesic_km Sample.package_fields Sample.carrier Sample.dimensions
           {| distance := 5; time := 300 # 30 |} 10%Q).
  - reflexivity.
  - reflexivity.
  - exists (PNum 10); split; reflexivity.
  - discriminate.
  - discriminate.
Defined.

(** X17: of two deliveries with the same urgency, the one with the longer
    deviation and the heavier package is compensated at least as much. *)
Theorem calculate_compensation_monotone
    (geodesic_km : point -> point -> result Q)
    (p1 p2 : list (string * pyval)) (carrier1 carrier2 dimensions1 dimensions2 : pyval)
    (deviation1 deviation2 : RouteDeviation) (weight1 weight2 : Q) :
  route_deviation_of geodesic_km (PDict p1) carrier1 = Ok deviation1 ->
  route_deviation_of geodesic_km (PDict p2) carrier2 = Ok deviation2 ->
  getitem_str (PDict p1) "dimensions" = Ok dimensions1 ->
  getitem_str (PDict p2) "dimensions" = Ok dimensions2 ->
  has_number dimensions1 "weight" weight1 ->
  has_number dimensions2 "weight" weight2 ->
  lookup "urgency" p1 = lookup "urgency" p2 ->
  (distance deviation1 <= distance deviation2)%Q -> (weight1 <= weight2)%Q ->
  exists compensation1 compensation2,
    calculate_compensation geodesic_km (PDict p1) carrier1 = Ok compensation1 /\
    calculate_compensation geodesic_km (PDict p2) carrier2 = Ok compensation2 /\
    (compensation1 <= compensation2)%Q.
Proof.
  intros Hrd1 Hrd2 Hdims1 Hdims2 Hw1 Hw2 Hu Hd Hw; eexists; eexists.
  split; [exact (calculate_compensation_value _ _ _ _ _ _ Hrd1 Hdims1 Hw1) |].
  split; [exact (calculate_compensation_value _ _ _ _ _ _ Hrd2 Hdims2 Hw2) |].
  apply py_round2_mono; rewrite Hu; lra.
Qed.

Lemma calculate_compensation_monotone_witness :
  exists compensation1 compensation2,
    calculate_compensation Sample.geodesic_km Sample.package Sample.carrier
    = Ok compensation1 /\
    calculate_compensation
      Sample.geodesic_km
      (PDict [ ("pickupCoordinates", Sample.coord 0 3);
               ("deliveryCoordinates", Sample.coord 3 0);
               ("dimensions", PDict [("weight", PNum 12)]);
               ("urgency", PStr "high") ])
      Sample.carrier = Ok compensation2 /\
    (compensation1 <= compensation2)%Q.
Proof.
  apply (calculate_compensation_monotone
           Sample.geodesic_km Sample.package_fields
           [ ("pickupCoordinates", Sample.coord 0 3);
             ("deliveryCoordinates", Sample.coord 3 0);
             ("dimensions", PDict [("weight", PNum 12)]);
             ("urgency", PStr "high") ]
           Sample.carrier Sample.carrier
           Sample.dimensions (PDict [("weight", PNum 12)])
           {| distance := 5; time := 300 # 30 |} {| distance := 6; time := 360 # 30 |}
           10%Q 12%Q); try reflexivity.
  - exists (PNum 10); split; reflexivity.
  - exists (PNum 12); split; reflexivity.
  - discriminate.
  - discriminate.
Defined.

(** *** The training rows *)



(** *** The command line *)

Section CommandLine.

Variable geodesic_km : point -> point -> result Q.
Variable model : Type.
Variable json_loads : string -> result pyval.
Variable json_dumps : pyval -> string.
Variable joblib_load : string -> result model.
Variable joblib_dump : model -> string -> result unit.
Variable predict_proba_1 : model -> list pyval -> result Q.
Variable load_json_file : string -> result pyval.
Variable fit_pipeline : list (list pyval) -> list pyval -> result model.

Lemma argv_item_ok (argv : list string) (i : nat) :
  (i < List.length argv)%nat -> exists s, argv_item argv i = Ok s.
Proof.
  intros H; unfold argv_item.
  destruct (nth_error argv i) eqn:E; [eexists; reflexivity |].
  apply nth_error_None in E; lia.
Qed.

Lemma argv_item_raises (argv : list string) (i : nat) (e : exn) :
  argv_item argv i = Raise e ->
  e = IndexError "list index out of range" /\ (List.length argv <= i)%nat.
Proof.
  unfold argv_item; destruct (nth_error argv i) eqn:E; [discriminate |].
  intros H; injection H as <-; split; [reflexivity | apply nth_error_None; exact E].
Qed.

(** X19: the command line fails only for want of arguments: the one exception
    that ends it is the [IndexError] of [sys.argv], and then there are fewer
    than five arguments; what goes wrong while predicting or training is
    printed as a result instead. *)
Theorem main_failures (argv : list string) (e : exn) :
  main geodesic_km model json_loads json_dumps joblib_load joblib_dump predict_proba_1
       load_json_file fit_pipeline argv = Raise e ->
  e = IndexError "list index out of range" /\ (List.length argv < 5)%nat.
Proof.
  unfold main; intros H.
  destruct (argv_item argv 1) as [command |] eqn:E1; cbn [bind] in H;
    [| destruct (argv_item_raises _ _ _ E1); split; [congruence | lia]].
  destruct (String.eqb command "predict").
  - destruct (argv_item argv 2) as [a2 |] eqn:E2; cbn [bind] in H;
      [| destruct (argv_item_raises _ _ _ E2); split; [congruence | lia]].
    destruct (argv_item argv 3) as [a3 |] eqn:E3; cbn [bind] in H;
      [| destruct (argv_item_raises _ _ _ E3); split; [congruence | lia]].
    destruct (argv_item argv 4) as [a4 |] eqn:E4; cbn [bind] in H;
      [discriminate H | destruct (argv_item_raises _ _ _ E4); split; [congruence | lia]].
  - destruct (String.eqb command "train"); [| discriminate H].
    destruct (argv_item argv 2) as [a2 |] eqn:E2; cbn [bind] in H;
      [| destruct (argv_item_raises _ _ _ E2); split; [congruence | lia]].
    destruct (argv_item argv 3) as [a3 |] eqn:E3; cbn [bind] in H;
      [discriminate H | destruct (argv_item_raises _ _ _ E3); split; [congruence | lia]].
Qed.

(** X20: with a command the script does not know, nothing is printed and
    nothing is raised, whatever follows the command. *)
Theorem main_unknown_command (argv : list string) (command : string) :
  nth_error argv 1 = Some command ->
  command <> "predict" -> command <> "train" ->
  main geodesic_km model json_loads json_dumps joblib_load joblib_dump predict_proba_1
       load_json_file fit_pipeline argv = Ok [].
Proof.
  intros Hc Hp Ht; unfold main, argv_item; rewrite Hc; cbn [bind].
  apply String.eqb_neq in Hp, Ht; rewrite Hp, Ht; reflexivity.
Qed.

End CommandLine.

Lemma main_failures_witness :
  IndexError "list index out of range" = IndexError "list index out of range" /\
  (List.length ["match_predict.py"; "predict"; "model.joblib"] < 5)%nat.
Proof.
  apply (main_failures
           Sample.geodesic_km Sample.model Sample.json_loads Sample.json_dumps
           Sample.joblib_load Sample.joblib_dump Sample.predict_proba_1
           Sample.load_json_file Sample.fit_pipeline
           ["match_predict.py"; "predict"; "model.joblib"]).
  reflexivity.
Defined.

Lemma main_unknown_command_witness :
  main Sample.geodesic_km Sample.model Sample.json_loads Sample.json_dumps
       Sample.joblib_load Sample.joblib_dump Sample.predict_proba_1
       Sample.load_json_file Sample.fit_pipeline
       ["match_predict.py"; "score"; "model.joblib"]
  = Ok [].
Proof.
  apply (main_unknown_command
           Sample.geodesic_km Sample.model Sample.json_loads Sample.json_dumps
           Sample.joblib_load Sample.joblib_dump Sample.predict_proba_1
           Sample.load_json_file Sample.fit_pipeline
           ["match_predict.py"; "score"; "model.joblib"] "score");
    [reflexivity | discriminate | discriminate].
Defined.

(** *** Failures while training *)

Lemma training_rows_step (geodesic_km : point -> point -> result Q)
    (record : pyval) (records : list pyval) (X : list (list pyval)) (y : list pyval) :
  training_rows geodesic_km (record :: records) X y
  = ('(features, outcome) <- training_row geodesic_km record ;;
     training_rows geodesic_km records (X ++ [features])%list (y ++ [outcome])%list).
Proof.
  cbn [training_rows]; unfold training_row.
  destruct (getitem_str record "package") as [package |]; cbn [bind]; [| reflexivity].
  destruct (getitem_str record "carrier") as [carrier |]; cbn [bind]; [| reflexivity].
  destruct (extract_features geodesic_km package carrier); cbn [bind]; [| reflexivity].
  destruct (getitem_str record "success"); reflexivity.
Qed.

(** The loop stops at the first record whose row fails, with its exception. *)
Lemma training_rows_first_failure (geodesic_km : point -> point -> result Q)
    (good : list pyval) (bad : pyval) (rest : list pyval) (e : exn) :
  Forall (fun record => returns (training_row geodesic_km record)) good ->
  training_row geodesic_km bad = Raise e ->
  forall X y, training_rows geodesic_km (good ++ bad :: rest)%list X y = Raise e.
Proof.
  intros Hgood Hbad; induction Hgood as [| record good [[features outcome] Hrow] _ IH];
    intros X y; cbn [app]; rewrite training_rows_step.
  - rewrite Hbad; reflexivity.
  - rewrite Hrow; cbn [bind]; apply IH.
Qed.

(** X21: when a record of the training data fails (a missing [package],
    [carrier] or [success], or features that cannot be extracted), [train_model]
    returns the error of the first such record, whatever the fit and the dump
    would have done: no model is fitted or saved on a part of the data. *)
Theorem train_model_first_failure
    (geodesic_km : point -> point -> result Q) (model : Type)
    (json_dumps : pyval -> string)
    (joblib_dump : model -> string -> result unit)
    (load_json_file : string -> result pyval)
    (fit_pipeline : list (list pyval) -> list pyval -> result model)
    (training_data_path model_path : string) (training_data : pyval)
    (good : list pyval) (bad : pyval) (rest : list pyval) (e : exn) :
  load_json_file training_data_path = Ok training_data ->
  py_iter training_data = Ok (good ++ bad :: rest)%list ->
  Forall (fun record => returns (training_row geodesic_km record)) good ->
  training_row geodesic_km bad = Raise e ->
  train_model geodesic_km model json_dumps joblib_dump load_json_file fit_pipeline
              training_data_path model_path
  = json_dumps (PDict [("error", PStr (str_exn e))]).
Proof.
  intros Hload Hiter Hgood Hbad; unfold train_model.
  rewrite Hload; cbn [bind]; rewrite Hiter; cbn [bind].
  rewrite (training_rows_first_failure _ _ _ _ _ Hgood Hbad); reflexivity.
Qed.

Lemma train_model_first_failure_witness :
  train_model
    Sample.geodesic_km Sample.model Sample.json_dumps Sample.joblib_dump
    (fun _ => Ok (PList [ PDict [ ("package", Sample.package); ("carrier", Sample.carrier);
                                  ("success", PBool true) ];
                          PDict [ ("package", Sample.package);
                                  ("carrier", Sample.carrier) ] ]))
    Sample.fit_pipeline "history.json" "model.joblib"
  = Sample.json_dumps (PDict [("error", PStr (str_exn (KeyError "'success'")))]).
Proof.
  apply (train_model_first_failure
           Sample.geodesic_km Sample.model Sample.json_dumps Sample.joblib_dump
           (fun _ => Ok (PList [ PDict [ ("package", Sample.package);
                                         ("carrier", Sample.carrier);
                                         ("success", PBool true) ];
                                 PDict [ ("package", Sample.package);
                                         ("carrier", Sample.carrier) ] ]))
           Sample.fit_pipeline "history.json" "model.joblib"
           (PList [ PDict [ ("package", Sample.package);
                            ("carrier", Sample.carrier);
                            ("success", PBool true) ];
                    PDict [ ("package", Sample.package);
                            ("carrier", Sample.carrier) ] ])
           [PDict [ ("package", Sample.package); ("carrier", Sample.carrier);
                    ("success", PBool true) ]]
           (PDict [ ("package", Sample.package); ("carrier", Sample.carrier) ])
           [] (KeyError "'success'")).
  - reflexivity.
  - reflexivity.
  - repeat constructor; eexists; reflexivity.
  - reflexivity.
Defined.

(** *** What the features read *)

(** X22: the feature vector reads five fields of the package and six of the
    carrier: on packages that agree on the coordinates, the windows and the
    dimensions, and carriers that agree on the route, the schedule, the vehicle
    and the three history fields, [extract_features] has the same outcome,
    whatever else (an [id], an [urgency]) the dicts hold. *)
Theorem extract_features_reads
    (geodesic_km : point -> point -> result Q) (p p' c c' : list (string * pyval)) :
  agree_on [ "pickupCoordinates"; "deliveryCoordinates"; "pickupWindow";
             "deliveryWindow"; "dimensions" ] p p' ->
  agree_on [ "routeCoordinates"; "schedule"; "vehicleCapacity"; "rating";
             "onTimeRate"; "completedDeliveries" ] c c' ->
  extract_features geodesic_km (PDict p) (PDict c)
  = extract_features geodesic_km (PDict p') (PDict c').
Proof.
  intros Hp Hc.
  repeat match goal with
         | H : agree_on _ _ _ |- _ => unfold agree_on in H
         | H : Forall _ (_ :: _) |- _ => inversion H; subst; clear H
         | H : Forall _ [] |- _ => clear H
         end.
  unfold extract_features, route_deviation_of, getitem_str, dict_get.
  repeat match goal with H : lookup _ _ = lookup _ _ |- _ => rewrite H; clear H end.
  reflexivity.
Qed.

Lemma extract_features_reads_witness :
  extract_features Sample.geodesic_km Sample.package Sample.carrier
  = extract_features
      Sample.geodesic_km
      (PDict (("urgency", PStr "low") :: ("id", PStr "pkg-2") :: Sample.package_fields))
      (PDict (("id", PStr "car-9") :: Sample.carrier_fields)).
Proof.
  apply (extract_features_reads
           Sample.geodesic_km Sample.package_fields
           (("urgency", PStr "low") :: ("id", PStr "pkg-2") :: Sample.package_fields)
           Sample.carrier_fields (("id", PStr "car-9") :: Sample.carrier_fields));
    repeat constructor.
Defined.

(** *** Windows that end before they start *)

(** X23: a window B that ends when it starts, or before (a zero duration, a
    window across midnight), has the overlap 0 with every window A: the
    division by its duration is not reached. *)
Theorem calculate_window_overlap_backward_window
    (A_start A_end B_start B_end : pyval) (a1 a2 b1 b2 : Z) :
  time_to_minutes A_start = Ok a1 -> time_to_minutes A_end = Ok a2 ->
  time_to_minutes B_start = Ok b1 -> time_to_minutes B_end = Ok b2 ->
  b2 <= b1 ->
  calculate_window_overlap A_start A_end B_start B_end = Ok 0%Q.
Proof.
  intros H1 H2 H3 H4 Hb.
  rewrite (window_overlap_value _ _ _ _ _ _ _ _ H1 H2 H3 H4).
  unfold spec_window_overlap.
  replace (Z.min a2 b2 <=? Z.max a1 b1) with true; [reflexivity |].
  symmetry; apply Z.leb_le; lia.
Qed.

Lemma calculate_window_overlap_backward_window_witness :
  calculate_window_overlap (PStr "08:00") (PStr "12:00") (PStr "23:00") (PStr "01:00")
  = Ok 0%Q.
Proof.
  apply (calculate_window_overlap_backward_window
           (PStr "08:00") (PStr "12:00") (PStr "23:00") (PStr "01:00")
           480 720 1380 60); try reflexivity; lia.
Defined.
